(** * figmaui2html: the node-to-markup transformation of [figmaui2html.py]

    A shallow embedding of [rgba_from_fill], [get_image_url] and
    [process_node], over a model of the Python values that [res.json()]
    hands to them, followed by the properties of the rendering that the
    specification states.

    Conventions of the model.
    - A decoded JSON document is a [value]: [None], booleans, integers
      (unbounded, [Z]), binary64 floats (the kernel's [float]), strings,
      lists, and dicts with string keys.  A dict is an association list in
      insertion order, its keys distinct; lookup takes the first binding.
    - A Python [str] is a [string] whose characters are code points below
      256.
    - An exception is a [Raise] in the [result] monad; the first one raised
      aborts everything after it, as an uncaught exception does.  The
      interpreter's limits (recursion depth, the digits of an integer
      conversion) are not modelled.
    - The HTTP round trip of [get_image_url] is a parameter of the
      development: what [requests.get], [raise_for_status] and [res.json()]
      deliver for a node id. *)

From Stdlib Require Import ZArith List String Ascii Bool Lia.
From Stdlib Require Import PrimFloat FloatOps SpecFloat.
From Stdlib Require Import DecimalString.
Import ListNotations.

Local Set Warnings "-register-all".
Local Open Scope string_scope.

(** ** Exceptions and the error monad *)

Inductive exn : Type :=
| KeyError
| IndexError
| TypeError
| AttributeError
| ValueError
| OverflowError
| RequestError.   (* anything [requests] raises: transport, HTTP status, decoding *)

Inductive result (A : Type) : Type :=
| Ok (a : A)
| Raise (e : exn).

Arguments Ok {A} a.
Arguments Raise {A} e.

Definition bind {A B : Type} (c : result A) (k : A -> result B) : result B :=
  match c with
  | Ok a => k a
  | Raise e => Raise e
  end.

Notation "x <- c ;; k" := (bind c (fun x => k))
  (at level 100, c at next level, right associativity).

Definition succeeds {A : Type} (c : result A) : Prop := exists a, c = Ok a.

(** ** Python values *)

Inductive value : Type :=
| VNone
| VBool (b : bool)
| VInt (z : Z)
| VFloat (f : float)
| VStr (s : string)
| VList (l : list value)
| VDict (d : list (string * value)).

Definition dict : Type := list (string * value).

(** ** Strings *)

Definition char_code (c : ascii) : N := N_of_ascii c.

Definition in_range (lo hi : N) (c : ascii) : bool :=
  (lo <=? char_code c)%N && (char_code c <=? hi)%N.

(** [str.lower] on code points below 256: the ASCII capitals and the
    Latin-1 capitals (U+00C0..U+00DE, the multiplication sign apart). *)
Definition lower_char (c : ascii) : ascii :=
  if in_range 65 90 c || (in_range 192 222 c && negb (char_code c =? 215)%N)
  then ascii_of_N (char_code c + 32)
  else c.

Fixpoint lower (s : string) : string :=
  match s with
  | EmptyString => EmptyString
  | String c s' => String (lower_char c) (lower s')
  end.

Fixpoint string_mem (c : ascii) (s : string) : bool :=
  match s with
  | EmptyString => false
  | String c' s' => Ascii.eqb c c' || string_mem c s'
  end.

Fixpoint string_forallb (p : ascii -> bool) (s : string) : bool :=
  match s with
  | EmptyString => true
  | String c s' => p c && string_forallb p s'
  end.

Fixpoint string_repeat (s : string) (n : nat) : string :=
  match n with
  | O => ""
  | S n' => s ++ string_repeat s n'
  end.

(** [needle in s]. *)
Fixpoint contains (needle s : string) : bool :=
  String.prefix needle s ||
  match s with
  | EmptyString => false
  | String _ s' => contains needle s'
  end.

(** ** Integers as text *)

Definition str_of_Z (z : Z) : string := NilZero.string_of_int (Z.to_int z).

Definition is_digit (c : ascii) : bool := in_range 48 57 c.

Definition digit_value (c : ascii) : Z := Z.of_N (char_code c) - 48.

(** Whitespace that [int] strips, among code points below 256: the ASCII
    blanks (tab to carriage return, and the space), the next-line control
    and the no-break space. *)
Definition is_space (c : ascii) : bool :=
  in_range 9 13 c || (char_code c =? 32)%N || (char_code c =? 133)%N
  || (char_code c =? 160)%N.

Fixpoint lstrip (s : string) : string :=
  match s with
  | String c s' => if is_space c then lstrip s' else s
  | EmptyString => EmptyString
  end.

Fixpoint string_rev_onto (s acc : string) : string :=
  match s with
  | EmptyString => acc
  | String c s' => string_rev_onto s' (String c acc)
  end.

Definition string_rev (s : string) : string := string_rev_onto s "".

Definition strip (s : string) : string :=
  string_rev (lstrip (string_rev (lstrip s))).

(** The digits of a decimal literal: groups of digits, one underscore
    allowed between two digits.  [after_digit] says the previous character
    was a digit. *)
Fixpoint parse_digits (s : string) (acc : Z) (after_digit : bool) : option Z :=
  match s with
  | EmptyString => if after_digit then Some acc else None
  | String c s' =>
      if is_digit c then parse_digits s' (10 * acc + digit_value c) true
      else if Ascii.eqb c "_" && after_digit then
             match s' with
             | String c' _ => if is_digit c' then parse_digits s' acc false else None
             | EmptyString => None
             end
           else None
  end.

(** [int(s)] for a string: surrounding whitespace, a sign, decimal digits. *)
Definition int_of_string (s : string) : result Z :=
  let body := strip s in
  let parsed :=
    match body with
    | String "+" rest => parse_digits rest 0 false
    | String "-" rest => option_map Z.opp (parse_digits rest 0 false)
    | _ => parse_digits body 0 false
    end in
  match parsed with
  | Some z => Ok z
  | None => Raise ValueError
  end.

(** ** Floats as text: [repr] of a binary64 value

    [float.__repr__] prints the shortest decimal string that reads back as
    the same float, the closest to the float's value when several are as
    short; in positional notation when the decimal point falls within
    [-4 < decpt <= 16], in exponent notation otherwise. *)

Module FloatRepr.

Local Open Scope Z_scope.

(** A positive rational [num * 2^e2], compared with the decimal
    [d * 10^k] by cross-multiplication. *)
Definition scaled_bin (num e2 k : Z) : Z :=
  num * 2 ^ Z.max e2 0 * 10 ^ Z.max (- k) 0.

Definition scaled_dec (d e2 k : Z) : Z :=
  d * 10 ^ Z.max k 0 * 2 ^ Z.max (- e2) 0.

(** [decpt]: the [p] with [10^(p-1) <= num * 2^e2 < 10^p], searched from
    an estimate by the number of bits. *)
Fixpoint adjust_decpt (fuel : nat) (num e2 p : Z) : Z :=
  match fuel with
  | O => p
  | S fuel' =>
      if scaled_bin num e2 (p - 1) <? scaled_dec 1 e2 (p - 1)
      then adjust_decpt fuel' num e2 (p - 1)
      else if scaled_dec 1 e2 p <=? scaled_bin num e2 p
           then adjust_decpt fuel' num e2 (p + 1)
           else p
  end.

Definition decpt_of (num e2 : Z) : Z :=
  let bits := Z.log2 num + 1 + e2 in
  adjust_decpt 8 num e2 ((bits - 1) * 30103 / 100000 + 1).

Record decimal : Type := Decimal { dec_digits : Z; dec_exp : Z }.

(** The float [m * 2^e] and the interval of reals that round to it, all
    over the common exponent [e - 2]: [4m], [low] and [high] are the
    numerators. The interval is closed when [m] is even (ties go to
    even). *)
Section Shortest.
Variables (m e : Z).

Let e2 := e - 2.
Let mid := 4 * m.
Let high := 4 * m + 2.
Let low := if (m =? 2 ^ 52) && (-1074 <? e) then 4 * m - 1 else 4 * m - 2.
Let closed := Z.even m.

Definition in_interval (d k : Z) : bool :=
  let c := scaled_dec d e2 k in
  let lo := scaled_bin low e2 k in
  let hi := scaled_bin high e2 k in
  if closed then (lo <=? c) && (c <=? hi) else (lo <? c) && (c <? hi).

(** The candidates with [n] digits: [v] cut off after [n] digits, and
    the next decimal above it. *)
Definition candidate (p n : Z) : option decimal :=
  let k := p - n in
  let v := scaled_bin mid e2 k in
  let unit := scaled_dec 1 e2 k in
  let down := v / unit in
  let up := down + 1 in
  let rest := v - down * unit in
  match in_interval down k, in_interval up k with
  | true, true =>
      if (2 * rest <? unit) || ((2 * rest =? unit) && Z.even down)
      then Some (Decimal down k) else Some (Decimal up k)
  | true, false => Some (Decimal down k)
  | false, true => Some (Decimal up k)
  | false, false => None
  end.

Fixpoint search (fuel : nat) (p n : Z) : decimal :=
  match fuel with
  | O => Decimal mid 0
  | S fuel' =>
      match candidate p n with
      | Some d => d
      | None => search fuel' p (n + 1)
      end
  end.

Definition shortest : decimal := search 17 (decpt_of mid e2) 1.
End Shortest.

Fixpoint strip_zeros (fuel : nat) (d k : Z) : decimal :=
  match fuel with
  | O => Decimal d k
  | S fuel' =>
      if (d mod 10 =? 0) && negb (d =? 0)
      then strip_zeros fuel' (d / 10) (k + 1)
      else Decimal d k
  end.

Definition zeros (n : Z) : string := string_repeat "0" (Z.to_nat n).

Fixpoint take (n : nat) (s : string) : string :=
  match n, s with
  | S n', String c s' => String c (take n' s')
  | _, _ => ""
  end.

Fixpoint drop (n : nat) (s : string) : string :=
  match n, s with
  | S n', String _ s' => drop n' s'
  | _, _ => s
  end.

(** The digits [ds] with the decimal point after the first [decpt] of
    them. *)
Definition positional (ds : string) (decpt : Z) : string :=
  let n := Z.of_nat (String.length ds) in
  if decpt <=? 0 then "0." ++ zeros (- decpt) ++ ds
  else if n <=? decpt then ds ++ zeros (decpt - n) ++ ".0"
  else take (Z.to_nat decpt) ds ++ "." ++ drop (Z.to_nat decpt) ds.

Definition exponent (x : Z) : string :=
  let a := str_of_Z (Z.abs x) in
  (if x <? 0 then "-" else "+") ++ (if Z.abs x <? 10 then "0" ++ a else a).

Definition scientific (ds : string) (decpt : Z) : string :=
  take 1 ds ++ (if (1 <? Z.of_nat (String.length ds))%Z then "." ++ drop 1 ds else "")
  ++ "e" ++ exponent (decpt - 1).

Definition repr_finite (m e : Z) : string :=
  let s := shortest m e in
  let d := strip_zeros 20 (dec_digits s) (dec_exp s) in
  let ds := str_of_Z (dec_digits d) in
  let decpt := Z.of_nat (String.length ds) + dec_exp d in
  if (decpt <=? -4) || (16 <? decpt) then scientific ds decpt else positional ds decpt.

Definition sign_str (s : bool) : string := if s then "-" else "".

Definition repr (f : float) : string :=
  match Prim2SF f with
  | S754_nan => "nan"
  | S754_infinity s => sign_str s ++ "inf"
  | S754_zero s => sign_str s ++ "0.0"
  | S754_finite s m e => sign_str s ++ repr_finite (Zpos m) e
  end.

(** [int(f)]: the integer part, towards zero. *)
Definition trunc (f : float) : result Z :=
  match Prim2SF f with
  | S754_nan => Raise ValueError
  | S754_infinity _ => Raise OverflowError
  | S754_zero _ => Ok 0
  | S754_finite s m e =>
      let a := if 0 <=? e then Zpos m * 2 ^ e else Zpos m / 2 ^ (- e) in
      Ok (if s then - a else a)
  end.

End FloatRepr.

(** ** [repr] and [str] of a value *)

Definition hex_digit (n : N) : ascii :=
  match n with
  | 0 => "0" | 1 => "1" | 2 => "2" | 3 => "3" | 4 => "4" | 5 => "5" | 6 => "6"
  | 7 => "7" | 8 => "8" | 9 => "9" | 10 => "a" | 11 => "b" | 12 => "c"
  | 13 => "d" | 14 => "e" | _ => "f"
  end%N%char.

(** Code points [repr] writes as they are: the printable ones. *)
Definition printable (c : ascii) : bool :=
  in_range 32 126 c || (in_range 161 255 c && negb (char_code c =? 173)%N).

Definition repr_char (quote c : ascii) : string :=
  if Ascii.eqb c quote || Ascii.eqb c "\" then String "\" (String c "")
  else if (char_code c =? 9)%N then "\t"
  else if (char_code c =? 10)%N then "\n"
  else if (char_code c =? 13)%N then "\r"
  else if printable c then String c ""
  else String "\" (String "x" (String (hex_digit (char_code c / 16))
                                     (String (hex_digit (char_code c mod 16)) ""))).

Fixpoint repr_chars (quote : ascii) (s : string) : string :=
  match s with
  | EmptyString => ""
  | String c s' => repr_char quote c ++ repr_chars quote s'
  end.

Definition apostrophe : ascii := ascii_of_N 39.
Definition double_quote : ascii := ascii_of_N 34.

Definition repr_str (s : string) : string :=
  let quote :=
    if string_mem apostrophe s && negb (string_mem double_quote s)
    then double_quote else apostrophe in
  String quote (repr_chars quote s ++ String quote "").

Fixpoint join (sep : string) (l : list string) : string :=
  match l with
  | [] => ""
  | [s] => s
  | s :: l' => s ++ sep ++ join sep l'
  end.

Fixpoint py_repr (v : value) : string :=
  match v with
  | VNone => "None"
  | VBool true => "True"
  | VBool false => "False"
  | VInt z => str_of_Z z
  | VFloat f => FloatRepr.repr f
  | VStr s => repr_str s
  | VList l => "[" ++ join ", " (map py_repr l) ++ "]"
  | VDict d =>
      "{" ++ join ", " (map (fun kv => repr_str (fst kv) ++ ": " ++ py_repr (snd kv)) d) ++ "}"
  end.

(** [str(v)], which is what an f-string field [{v}] writes. *)
Definition py_str (v : value) : string :=
  match v with
  | VStr s => s
  | _ => py_repr v
  end.

(** ** Operations on values *)

(** [bool(v)]: the test of [if v:] and of [v or ...]. *)
Definition truthy (v : value) : bool :=
  match v with
  | VNone => false
  | VBool b => b
  | VInt z => negb (z =? 0)%Z
  | VFloat f => negb (PrimFloat.is_zero f)
  | VStr s => negb (String.eqb s "")
  | VList l => match l with [] => false | _ => true end
  | VDict d => match d with [] => false | _ => true end
  end.

(** [v == s] for a string literal [s]. *)
Definition eq_str (v : value) (s : string) : bool :=
  match v with
  | VStr s' => String.eqb s' s
  | _ => false
  end.

Fixpoint lookup (k : string) (d : dict) : option value :=
  match d with
  | [] => None
  | (k', v) :: rest => if String.eqb k' k then Some v else lookup k rest
  end.

(** [k in d]. *)
Definition has_key (k : string) (d : dict) : bool :=
  match lookup k d with Some _ => true | None => false end.

(** [d.get(k, default)] on a dict. *)
Definition get (d : dict) (k : string) (default : value) : value :=
  match lookup k d with Some v => v | None => default end.

(** [v.get(k, default)]: only a dict has the method. *)
Definition py_get (v : value) (k : string) (default : value) : result value :=
  match v with
  | VDict d => Ok (get d k default)
  | _ => Raise AttributeError
  end.

(** [v[k]] for a string key. *)
Definition subscript (v : value) (k : string) : result value :=
  match v with
  | VDict d => match lookup k d with Some x => Ok x | None => Raise KeyError end
  | _ => Raise TypeError
  end.

(** [v[0]]. *)
Definition first (v : value) : result value :=
  match v with
  | VList (x :: _) => Ok x
  | VStr (String c _) => Ok (VStr (String c ""))
  | VList [] | VStr EmptyString => Raise IndexError
  | VDict _ => Raise KeyError
  | _ => Raise TypeError
  end.

(** [v.lower()]: only a string has the method. *)
Definition py_lower (v : value) : result string :=
  match v with
  | VStr s => Ok (lower s)
  | _ => Raise AttributeError
  end.

(** [v * 255]. *)
Definition times_255 (v : value) : result value :=
  match v with
  | VBool b => Ok (VInt (if b then 255 else 0))
  | VInt z => Ok (VInt (z * 255))
  | VFloat f => Ok (VFloat (f * 255)%float)
  | VStr s => Ok (VStr (string_repeat s 255))
  | VList l => Ok (VList (List.concat (List.repeat l 255)))
  | VNone | VDict _ => Raise TypeError
  end.

(** [int(v)]. *)
Definition py_int (v : value) : result Z :=
  match v with
  | VBool b => Ok (if b then 1 else 0)%Z
  | VInt z => Ok z
  | VFloat f => FloatRepr.trunc f
  | VStr s => int_of_string s
  | VNone | VList _ | VDict _ => Raise TypeError
  end.

(** A dict found by continuation, so that a recursive call on what is
    found stays structural. *)
Section DictCase.
Context {B : Type} (k : string) (found : value -> B) (missing : B).

Fixpoint dict_case (d : dict) : B :=
  match d with
  | [] => missing
  | (k', v) :: rest => if String.eqb k' k then found v else dict_case rest
  end.
End DictCase.

(** [d.get(k, default)] where the key is itself a value: a string is
    looked up, a list or a dict cannot be hashed, and nothing else equals
    a key of a decoded JSON object. *)
Definition py_get_key (v key default : value) : result value :=
  match v with
  | VDict d =>
      match key with
      | VStr k => Ok (get d k default)
      | VList _ | VDict _ => Raise TypeError
      | _ => Ok default
      end
  | _ => Raise AttributeError
  end.

Definition dq : string := String double_quote "".
Definition nl : string := String (ascii_of_N 10) "".

(** ** The program *)

Section Render.

(** Lines 23-26 of [get_image_url] with [res.json()]: the decoded body
    the images endpoint answers for [node_id], or what was raised on the
    way ([requests.get], [raise_for_status], the decoding). *)
Variable images_response : value -> result value.

Definition get_image_url (node_id : value) : result value :=
  body <- images_response node_id ;;
  images <- subscript body "images" ;;
  py_get_key images node_id (VStr "").

(** [int(c[k] * 255)]. *)
Definition channel (c : value) (k : string) : result Z :=
  x <- subscript c k ;;
  scaled <- times_255 x ;;
  py_int scaled.

Definition rgba_from_fill (fill : value) : result string :=
  ty <- py_get fill "type" VNone ;;
  if eq_str ty "SOLID" then
    c <- subscript fill "color" ;;
    r <- channel c "r" ;;
    g <- channel c "g" ;;
    b <- channel c "b" ;;
    a <- py_get fill "opacity" (VInt 1) ;;
    Ok ("rgba(" ++ str_of_Z r ++ "," ++ str_of_Z g ++ "," ++ str_of_Z b ++ ","
                ++ py_str a ++ ")")
  else Ok "".

(** *** [process_node], lines 49-101: what each rule group adds to [css] *)

(** 1) position and size. *)
Definition position_css (node : dict) : result string :=
  if has_key "absoluteBoundingBox" node then
    bb <- subscript (VDict node) "absoluteBoundingBox" ;;
    x <- subscript bb "x" ;;
    y <- subscript bb "y" ;;
    width <- subscript bb "width" ;;
    height <- subscript bb "height" ;;
    Ok ("position:absolute; "
        ++ "left:" ++ py_str x ++ "px; top:" ++ py_str y ++ "px; "
        ++ "width:" ++ py_str width ++ "px; height:" ++ py_str height ++ "px; ")
  else Ok "".

(** 2) auto layout. *)
Definition layout_css (node : dict) : result string :=
  if truthy (get node "layoutMode" VNone) then
    mode <- subscript (VDict node) "layoutMode" ;;
    align <- py_lower (get node "primaryAxisAlignItems" (VStr "MIN")) ;;
    justify <- py_lower (get node "counterAxisAlignItems" (VStr "MIN")) ;;
    Ok ("display:flex; "
        ++ "flex-direction:" ++ (if eq_str mode "HORIZONTAL" then "row" else "column") ++ "; "
        ++ "gap:" ++ py_str (get node "itemSpacing" (VInt 0)) ++ "px; "
        ++ "padding:" ++ py_str (get node "paddingTop" (VInt 0)) ++ "px "
        ++ py_str (get node "paddingRight" (VInt 0)) ++ "px "
        ++ py_str (get node "paddingBottom" (VInt 0)) ++ "px "
        ++ py_str (get node "paddingLeft" (VInt 0)) ++ "px; "
        ++ "align-items:" ++ align ++ "; "
        ++ "justify-content:" ++ justify ++ "; ")
  else Ok "".

(** 3) constraints. *)
Definition constraints_css (node : dict) : result string :=
  let cons := get node "constraints" (VDict []) in
  h <- py_get cons "horizontal" VNone ;;
  v <- py_get cons "vertical" VNone ;;
  Ok ((if eq_str h "STRETCH" then "width:100%; "
       else if eq_str h "CENTER" then "margin-left:auto; margin-right:auto; "
       else "")
      ++ (if eq_str v "STRETCH" then "height:100%; "
          else if eq_str v "CENTER" then "margin-top:auto; margin-bottom:auto; "
          else "")).

(** 4) layout grid. *)
Definition grid_css (node : dict) : result string :=
  let grids := get node "layoutGrids" (VList []) in
  if truthy grids then
    g <- first grids ;;
    pattern <- py_get g "pattern" VNone ;;
    if eq_str pattern "COLUMNS" then
      count <- py_get g "count" VNone ;;
      gutter <- py_get g "gutterSize" (VInt 0) ;;
      Ok ("display:grid; "
          ++ "grid-template-columns: repeat(" ++ py_str count ++ ", 1fr); "
          ++ "column-gap: " ++ py_str gutter ++ "px; ")
    else Ok ""
  else Ok "".

(** [node.get("fills") or []]. *)
Definition fills_of (node : dict) : value :=
  let fills := get node "fills" VNone in
  if truthy fills then fills else VList [].

(** 5) background, for a node that is not a TEXT. *)
Definition background_css (node : dict) : result string :=
  if negb (eq_str (get node "type" VNone) "TEXT") then
    let fills := fills_of node in
    if truthy fills then
      fill <- first fills ;;
      color_str <- rgba_from_fill fill ;;
      if truthy (VStr color_str)
      then Ok ("background-color: " ++ color_str ++ "; ")
      else Ok ""
    else Ok ""
  else Ok "".

(** The value of [css] at line 102. *)
Definition node_css (node : dict) : result string :=
  position <- position_css node ;;
  layout <- layout_css node ;;
  constraints <- constraints_css node ;;
  grid <- grid_css node ;;
  background <- background_css node ;;
  Ok (position ++ layout ++ constraints ++ grid ++ background).

(** *** Lines 104-112: the colour of a TEXT *)
Definition text_color (node : dict) : result string :=
  let fills := fills_of node in
  if truthy fills then
    fill <- first fills ;;
    ty <- py_get fill "type" VNone ;;
    if eq_str ty "SOLID" then rgba_from_fill fill else Ok "black"
  else Ok "black".

(** *** Lines 45-121: the element of the node itself *)
Definition node_element (node : dict) : result string :=
  let t := get node "type" VNone in
  css <- node_css node ;;
  if eq_str t "TEXT" then
    size <- py_get (get node "style" (VDict [])) "fontSize" (VInt 12) ;;
    color <- text_color node ;;
    Ok ("<p style=" ++ dq ++ css ++ "font-size:" ++ py_str size ++ "px; color:" ++ color
        ++ ";" ++ dq ++ ">" ++ py_str (get node "characters" (VStr "")) ++ "</p>")
  else if eq_str t "IMAGE" then
    id <- subscript (VDict node) "id" ;;
    src <- get_image_url id ;;
    Ok ("<img src=" ++ dq ++ py_str src ++ dq ++ " style=" ++ dq ++ css ++ dq ++ " />")
  else
    Ok ("<div style=" ++ dq ++ css ++ dq ++ "></div>").

(** *** Lines 123-127: the loop over the children *)
Section Children.
Variable render : value -> result string.

Fixpoint append_children (children : list value) (html : string) : result string :=
  match children with
  | [] => Ok html
  | child :: rest =>
      h <- render child ;;
      append_children rest (html ++ h)
  end.

(** [for child in children]: a list gives its items; a string gives its
    characters and a dict its keys, none of which has [get]; nothing
    else can be iterated. *)
Definition for_children (children : value) (html : string) : result string :=
  match children with
  | VList l => append_children l html
  | VStr EmptyString | VDict [] => Ok html
  | VStr _ | VDict _ => Raise AttributeError
  | _ => Raise TypeError
  end.
End Children.

Fixpoint process_node (node : value) : result string :=
  match node with
  | VDict d =>
      html <- node_element d ;;
      dict_case "children"
        (fun children => for_children process_node children html)
        (Ok html) d
  | _ => Raise AttributeError
  end.

End Render.

(** Lines 133-143 of [generate_html]: the value of [full_html], the text of
    the document around the rendering of the root. *)
Definition full_html (body_html : string) : string :=
  "<!DOCTYPE html>" ++ nl
  ++ "<html lang=" ++ dq ++ "en" ++ dq ++ ">" ++ nl
  ++ "<head>" ++ nl
  ++ "  <meta charset=" ++ dq ++ "UTF-8" ++ dq ++ ">" ++ nl
  ++ "  <title>Figma to HTML</title>" ++ nl
  ++ "  <style>body{position:relative;margin:0;padding:0;}</style>" ++ nl
  ++ "</head>" ++ nl
  ++ "<body>" ++ nl
  ++ body_html ++ nl
  ++ "</body>" ++ nl
  ++ "</html>".

(** ** Vocabulary of the statements *)

(** The renderings of a list of nodes, in order; the first exception wins. *)
Fixpoint map_result {A B : Type} (f : A -> result B) (l : list A) : result (list B) :=
  match l with
  | [] => Ok []
  | x :: l' =>
      y <- f x ;;
      ys <- map_result f l' ;;
      Ok (y :: ys)
  end.

Definition join_all (l : list string) : string := String.concat "" l.

(** [d[k] = v]. *)
Fixpoint dict_set (k : string) (v : value) (d : dict) : dict :=
  match d with
  | [] => [(k, v)]
  | (k', v') :: rest =>
      if String.eqb k' k then (k, v) :: rest else (k', v') :: dict_set k v rest
  end.

Definition is_text (node : dict) : bool := eq_str (get node "type" VNone) "TEXT".
Definition is_image (node : dict) : bool := eq_str (get node "type" VNone) "IMAGE".

(** One element of the markup, as [process_node] writes the three kinds. *)
Definition is_element (s : string) : Prop :=
  (exists style text, s = "<p style=" ++ dq ++ style ++ dq ++ ">" ++ text ++ "</p>")
  \/ (exists src css, s = "<img src=" ++ dq ++ src ++ dq ++ " style=" ++ dq ++ css ++ dq ++ " />")
  \/ (exists css, s = "<div style=" ++ dq ++ css ++ dq ++ "></div>").

(** The integer [z] is the real number [(-1)^s * m * 2^e] cut off towards
    zero: same sign, and [|z| <= m * 2^e < |z| + 1]. *)
Definition truncation_of (s : bool) (m : positive) (e z : Z) : Prop :=
  exists a : Z,
    (0 <= a)%Z /\ z = (if s then - a else a)%Z
    /\ (a * 2 ^ Z.max (- e) 0 <= Zpos m * 2 ^ Z.max e 0)%Z
    /\ (Zpos m * 2 ^ Z.max e 0 < (a + 1) * 2 ^ Z.max (- e) 0)%Z.

(** [n] is the colour channel [x] times 255 without its fraction: the exact
    product of an integer, the binary64 product of a float cut off towards
    zero. *)
Definition channel_of (x : value) (n : Z) : Prop :=
  match x with
  | VInt z => n = (z * 255)%Z
  | VFloat f =>
      match Prim2SF (f * 255)%float with
      | S754_finite s m e => truncation_of s m e n
      | S754_zero _ => n = 0%Z
      | _ => False
      end
  | _ => False
  end.

(** The specification's words for the text of a paragraph: the HTML-special
    characters escaped, as [html.escape] does. *)
Definition escape_char (c : ascii) : string :=
  if Ascii.eqb c "&" then "&amp;"
  else if Ascii.eqb c "<" then "&lt;"
  else if Ascii.eqb c ">" then "&gt;"
  else if Ascii.eqb c double_quote then "&quot;"
  else if Ascii.eqb c apostrophe then "&#x27;"
  else String c "".

Fixpoint html_escape (s : string) : string :=
  match s with
  | EmptyString => ""
  | String c s' => escape_char c ++ html_escape s'
  end.

(** An images endpoint that answers every request with an empty mapping,
    and one that cannot be reached. *)
Definition no_images (node_id : value) : result value :=
  Ok (VDict [("err", VNone); ("images", VDict [])]).

Definition unreachable (node_id : value) : result value := Raise RequestError.

(** An endpoint that maps the id 1:5 to [null]. *)
Definition null_image (node_id : value) : result value :=
  Ok (VDict [("err", VNone); ("images", VDict [("1:5", VNone)])]).

(** The nodes of the specification's examples. *)
Definition black_fill : value :=
  VDict [("type", VStr "SOLID");
         ("color", VDict [("r", VFloat 0); ("g", VFloat 0); ("b", VFloat 0)]);
         ("opacity", VInt 1)].

Definition hello_text : dict :=
  [("id", VStr "1:3"); ("type", VStr "TEXT"); ("characters", VStr "Hello");
   ("style", VDict [("fontSize", VInt 20)]); ("fills", VList [black_fill])].

Definition hello_page : dict :=
  [("id", VStr "0:1"); ("type", VStr "CANVAS"); ("children", VList [VDict hello_text])].

Definition bold_text : dict :=
  [("id", VStr "1:4"); ("type", VStr "TEXT"); ("characters", VStr "<b>")].

Definition picture : dict := [("id", VStr "1:5"); ("type", VStr "IMAGE")].

Definition album : dict :=
  [("id", VStr "1:6"); ("type", VStr "FRAME");
   ("children", VList [VDict hello_text; VDict picture])].

Definition flex_row : dict :=
  [("id", VStr "1:7"); ("type", VStr "FRAME"); ("layoutMode", VStr "HORIZONTAL");
   ("itemSpacing", VInt 8); ("paddingTop", VInt 4); ("paddingRight", VInt 4);
   ("paddingBottom", VInt 4); ("paddingLeft", VInt 4)].

Definition box : value :=
  VDict [("x", VFloat 10.5); ("y", VInt 0); ("width", VFloat 100); ("height", VFloat 40)].

Definition boxed_text : dict :=
  [("id", VStr "1:8"); ("type", VStr "TEXT"); ("absoluteBoundingBox", box);
   ("fills", VNone)].

(** The fill of the specification's example: red, half opaque. *)
Definition red_fill : dict :=
  [("type", VStr "SOLID");
   ("color", VDict [("r", VInt 1); ("g", VInt 0); ("b", VInt 0)]);
   ("opacity", VFloat 0.5)].

(** A fill whose channels have fractions when taken times 255: 127.5,
    191.25 and 255. *)
Definition pastel_fill : dict :=
  [("type", VStr "SOLID");
   ("color", VDict [("r", VFloat 0.5); ("g", VFloat 0.75); ("b", VFloat 1)])].

(** A node whose only grid is a COLUMNS grid with no [count]. *)
Definition grid_without_count : dict :=
  [("type", VStr "FRAME");
   ("layoutGrids", VList [VDict [("pattern", VStr "COLUMNS"); ("gutterSize", VInt 10)]])].

(** The data model's typing of the fields that are printed into the style:
    where a number is expected stands no string or container, and an
    alignment is a keyword (letters, digits, underscores). *)
Definition scalar (v : value) : bool :=
  match v with
  | VNone | VBool _ | VInt _ | VFloat _ => true
  | VStr _ | VList _ | VDict _ => false
  end.

Definition is_word_char (c : ascii) : bool :=
  in_range 65 90 c || in_range 97 122 c || is_digit c || Ascii.eqb c "_".

Definition keyword (v : value) : bool :=
  match v with
  | VStr s => string_forallb is_word_char s
  | _ => false
  end.

Definition field_is (p : value -> bool) (k : string) (d : dict) : bool :=
  match lookup k d with
  | Some v => p v
  | None => true
  end.

Definition box_typed (d : dict) : bool :=
  match lookup "absoluteBoundingBox" d with
  | Some (VDict bb) =>
      field_is scalar "x" bb && field_is scalar "y" bb
      && field_is scalar "width" bb && field_is scalar "height" bb
  | _ => true
  end.

Definition layout_typed (d : dict) : bool :=
  field_is scalar "itemSpacing" d
  && field_is scalar "paddingTop" d && field_is scalar "paddingRight" d
  && field_is scalar "paddingBottom" d && field_is scalar "paddingLeft" d
  && field_is keyword "primaryAxisAlignItems" d
  && field_is keyword "counterAxisAlignItems" d.

Definition grid_typed (d : dict) : bool :=
  match lookup "layoutGrids" d with
  | Some (VList (VDict g :: _)) =>
      field_is scalar "count" g && field_is scalar "gutterSize" g
  | _ => true
  end.

Definition well_typed (d : dict) : bool :=
  box_typed d && layout_typed d && grid_typed d.

(** The text whose absence from a TEXT's style is claimed, and a scanner
    for it: the state is how much of the text the characters read so far
    end with, 16 once all of it has been read.  The text has its [b] at
    the start only, so a mismatch falls back to 1 on a [b] and to 0
    otherwise. *)
Definition background_color : string := "background-color".

Definition scan_step (q : nat) (c : ascii) : nat :=
  if Nat.eqb q 16 then 16
  else if match String.get q background_color with
          | Some x => Ascii.eqb c x
          | None => false
          end
       then S q
       else if Ascii.eqb c "b" then 1 else 0.

Fixpoint scan (q : nat) (s : string) : nat :=
  match s with
  | EmptyString => q
  | String c s' => scan (scan_step q c) s'
  end.

(** The characters of a number as [str] writes it. *)
Definition numeric_char (c : ascii) : bool :=
  is_digit c || string_mem c "-+.einfa".

Definition text_on_red : dict :=
  [("id", VStr "1:9"); ("type", VStr "TEXT"); ("characters", VStr "Stop");
   ("absoluteBoundingBox", box); ("layoutMode", VStr "VERTICAL");
   ("primaryAxisAlignItems", VStr "SPACE_BETWEEN");
   ("fills", VList [VDict red_fill])].

Definition frame_on_red : dict := dict_set "type" (VStr "FRAME") text_on_red.

(** What the examples render to. *)
Definition hello_markup : string :=
  "<p style=" ++ dq ++ "font-size:20px; color:rgba(0,0,0,1);" ++ dq ++ ">Hello</p>".

Definition empty_div : string := "<div style=" ++ dq ++ dq ++ "></div>".

Definition box_css : string :=
  "position:absolute; left:10.5px; top:0px; width:100.0px; height:40.0px; ".

(** The nodes of a tree in the order [process_node] visits them: a node,
    then the subtrees of its [children] list from first to last. *)
Fixpoint preorder (node : value) : list dict :=
  match node with
  | VDict d =>
      d :: dict_case "children"
             (fun children =>
                match children with
                | VList l => flat_map preorder l
                | _ => []
                end)
             [] d
  | _ => []
  end.

(** A tree: every node a dict, every [children] a list of trees. *)
Fixpoint tree (node : value) : bool :=
  match node with
  | VDict d =>
      dict_case "children"
        (fun children =>
           match children with
           | VList l => forallb tree l
           | _ => false
           end)
        true d
  | _ => false
  end.

(** The rendering of [v] is the elements of the visited nodes, one after
    the other. *)
Definition flat (images_response : value -> result value) (v : value) : Prop :=
  process_node images_response v =
  (xs <- map_result (node_element images_response) (preorder v) ;; Ok (join_all xs)).

(** More nodes and endpoints for the examples. *)
Definition one_image (node_id : value) : result value :=
  Ok (VDict [("err", VNone);
             ("images", VDict [("1:5", VStr "https://cdn.example/img/1-5.png")])]).

Definition hidden_hello_text : dict :=
  ("name", VStr "Title") :: ("visible", VBool false) :: hello_text.

Definition half_box : dict :=
  [("type", VStr "FRAME");
   ("absoluteBoundingBox", VDict [("x", VInt 0); ("y", VInt 0); ("width", VInt 10)])].

Definition null_box : dict := [("type", VStr "FRAME"); ("absoluteBoundingBox", VNone)].

Definition colorless : dict :=
  [("type", VStr "FRAME"); ("fills", VList [VDict [("type", VStr "SOLID")]])].

Definition colorless_text : dict := dict_set "type" (VStr "TEXT") colorless.

Definition null_constraints : dict := [("type", VStr "FRAME"); ("constraints", VNone)].

Definition stretched : dict :=
  [("type", VStr "FRAME");
   ("constraints", VDict [("horizontal", VStr "STRETCH"); ("vertical", VStr "CENTER")])].

Definition three_columns : dict :=
  [("type", VStr "FRAME"); ("layoutMode", VStr "VERTICAL");
   ("layoutGrids",
    VList [VDict [("pattern", VStr "COLUMNS"); ("count", VInt 3); ("gutterSize", VInt 10)]])].

Definition gradient_frame : dict :=
  [("type", VStr "FRAME"); ("fills", VList [VDict [("type", VStr "GRADIENT_LINEAR")]])].

(** The keys of a node that [process_node] reads. *)
Definition read_keys : list string :=
  ["type"; "absoluteBoundingBox"; "layoutMode"; "itemSpacing";
   "paddingTop"; "paddingRight"; "paddingBottom"; "paddingLeft";
   "primaryAxisAlignItems"; "counterAxisAlignItems"; "constraints";
   "layoutGrids"; "fills"; "style"; "characters"; "id"; "children"].

(** A style that can be appended to: empty, or ending with the separator
    of declarations. *)
Definition closed_style (css : string) : Prop :=
  css = "" \/ exists declarations, css = declarations ++ "; ".

(** ** Basic facts *)

Lemma bind_ok {A B : Type} (c : result A) (k : A -> result B) (b : B) :
  bind c k = Ok b -> exists a, c = Ok a /\ k a = Ok b.
Proof.
  destruct c as [a|e]; simpl; intros H.
  - exists a. split; [reflexivity | exact H].
  - discriminate H.
Qed.

Lemma bind_raise {A B : Type} (c : result A) (k : A -> result B) (e : exn) :
  c = Raise e -> bind c k = Raise e.
Proof. intros ->. reflexivity. Qed.

Lemma dict_case_lookup {B : Type} (k : string) (found : value -> B) (missing : B) (d : dict) :
  dict_case k found missing d =
  match lookup k d with Some v => found v | None => missing end.
Proof.
  induction d as [|[k' v] rest IH]; simpl.
  - reflexivity.
  - destruct (String.eqb k' k); [reflexivity | exact IH].
Qed.

Lemma string_app_assoc (a b c : string) : (a ++ b) ++ c = a ++ (b ++ c).
Proof.
  induction a as [|x a IH]; simpl; [reflexivity | now rewrite IH].
Qed.

Lemma string_app_nil_r (a : string) : a ++ "" = a.
Proof.
  induction a as [|x a IH]; simpl; [reflexivity | now rewrite IH].
Qed.

Lemma join_all_cons (h : string) (hs : list string) :
  join_all (h :: hs) = h ++ join_all hs.
Proof.
  unfold join_all. destruct hs as [|h' hs]; simpl.
  - now rewrite string_app_nil_r.
  - reflexivity.
Qed.

Lemma append_children_map (f : value -> result string) (cs : list value) (html : string) :
  append_children f cs html =
  (kids <- map_result f cs ;; Ok (html ++ join_all kids)).
Proof.
  revert html. induction cs as [|c cs IH]; intros html; simpl.
  - now rewrite string_app_nil_r.
  - destruct (f c) as [h|e]; simpl; [|reflexivity].
    rewrite IH. destruct (map_result f cs) as [hs|e]; simpl; [|reflexivity].
    now rewrite join_all_cons, string_app_assoc.
Qed.

Lemma map_result_ok {A B : Type} (f : A -> result B) (l : list A) (ys : list B) :
  map_result f l = Ok ys <-> Forall2 (fun x y => f x = Ok y) l ys.
Proof.
  revert ys. induction l as [|x l IH]; intros ys; simpl.
  - split.
    + intros H. injection H as <-. constructor.
    + intros H. inversion H. reflexivity.
  - split.
    + intros H. apply bind_ok in H as (y & Hy & H).
      apply bind_ok in H as (ys' & Hys & H). injection H as <-.
      constructor; [exact Hy | now apply IH].
    + intros H. inversion H as [|x' y l' ys' Hy Hys]; subst.
      rewrite Hy. simpl. apply IH in Hys. rewrite Hys. reflexivity.
Qed.

(** ** The renderer: one element per node, children after it *)

Section Renderer.

Variable images_response : value -> result value.

Local Notation "'render'" := (process_node images_response).
Local Notation "'element'" := (node_element images_response).

Lemma process_node_unfold (d : dict) :
  render (VDict d) =
  (html <- element d ;;
   match lookup "children" d with
   | Some children => for_children render children html
   | None => Ok html
   end).
Proof.
  simpl. destruct (element d) as [html|e]; simpl; [|reflexivity].
  apply dict_case_lookup.
Qed.

Lemma node_element_shape (d : dict) (own : string) :
  element d = Ok own -> is_element own.
Proof.
  unfold node_element. intros H.
  apply bind_ok in H as (css & _ & H).
  destruct (eq_str (get d "type" VNone) "TEXT").
  - apply bind_ok in H as (size & _ & H).
    apply bind_ok in H as (color & _ & H).
    injection H as <-. left.
    exists (css ++ "font-size:" ++ py_str size ++ "px; color:" ++ color ++ ";"),
      (py_str (get d "characters" (VStr ""))).
    now rewrite !string_app_assoc.
  - destruct (eq_str (get d "type" VNone) "IMAGE").
    + apply bind_ok in H as (id & _ & H).
      apply bind_ok in H as (src & _ & H).
      injection H as <-. right. left. now exists (py_str src), css.
    + injection H as <-. right. right. now exists css.
Qed.

(** C4. [process_node] of a node is the node's own element followed by the
    renderings of its children, in the order of the [children] list, as
    siblings after the element and not inside it: no child gives exactly
    the element, [N] children give the element and then [N] renderings. *)
Theorem process_node_flat (d : dict) (cs : list value) :
  get d "children" (VList []) = VList cs ->
  render (VDict d) =
    (own <- element d ;;
     kids <- map_result render cs ;;
     Ok (own ++ join_all kids))
  /\ (cs = [] -> render (VDict d) = element d)
  /\ (forall html, render (VDict d) = Ok html ->
      exists own kids,
        element d = Ok own /\ is_element own
        /\ Forall2 (fun c h => render c = Ok h) cs kids
        /\ List.length kids = List.length cs
        /\ html = own ++ join_all kids).
Proof.
  intros Hcs.
  assert (Heq : render (VDict d) =
                (own <- element d ;;
                 kids <- map_result render cs ;;
                 Ok (own ++ join_all kids))).
  { rewrite process_node_unfold. unfold get in Hcs.
    destruct (element d) as [own|e]; simpl; [|reflexivity].
    destruct (lookup "children" d) as [children|].
    - subst children. simpl. apply append_children_map.
    - injection Hcs as <-. simpl. now rewrite string_app_nil_r. }
  split; [exact Heq|]. split.
  - intros ->. rewrite Heq. destruct (element d) as [own|e]; simpl; [|reflexivity].
    now rewrite string_app_nil_r.
  - intros html H. rewrite Heq in H.
    apply bind_ok in H as (own & Hown & H).
    apply bind_ok in H as (kids & Hkids & H). injection H as <-.
    exists own, kids. apply map_result_ok in Hkids.
    repeat split; try assumption.
    + now apply node_element_shape with d.
    + symmetry. now apply Forall2_length with (1 := Hkids).
Qed.

End Renderer.

(** Both sides of an equation of strings, appended to the right. *)
Ltac string_assoc :=
  repeat first [progress cbn [append] | rewrite string_app_assoc].

(** ** The style: what each rule group contributes *)

Lemma node_css_ok (d : dict) (css : string) :
  node_css d = Ok css ->
  exists position layout constraints grid background,
    position_css d = Ok position /\ layout_css d = Ok layout
    /\ constraints_css d = Ok constraints /\ grid_css d = Ok grid
    /\ background_css d = Ok background
    /\ css = position ++ layout ++ constraints ++ grid ++ background.
Proof.
  unfold node_css. intros H.
  apply bind_ok in H as (p & Hp & H). apply bind_ok in H as (l & Hl & H).
  apply bind_ok in H as (c & Hc & H). apply bind_ok in H as (g & Hg & H).
  apply bind_ok in H as (b & Hb & H). injection H as <-.
  now exists p, l, c, g, b.
Qed.

Lemma node_css_groups (d : dict) (p l c g b : string) :
  position_css d = Ok p -> layout_css d = Ok l -> constraints_css d = Ok c ->
  grid_css d = Ok g -> background_css d = Ok b ->
  node_css d = Ok (p ++ l ++ c ++ g ++ b).
Proof.
  unfold node_css. now intros -> -> -> -> ->.
Qed.

(** C9. A node that has an [absoluteBoundingBox], whatever its type, is
    positioned absolutely: its style starts with [left], [top], [width] and
    [height] set to the box's [x], [y], [width] and [height] as they print,
    in px. *)
Theorem bounding_box_positions (d : dict) (bb : value) :
  lookup "absoluteBoundingBox" d = Some bb ->
  (forall css, node_css d = Ok css ->
     exists x y width height rest,
       subscript bb "x" = Ok x /\ subscript bb "y" = Ok y
       /\ subscript bb "width" = Ok width /\ subscript bb "height" = Ok height
       /\ css = "position:absolute; left:" ++ py_str x ++ "px; top:" ++ py_str y
                ++ "px; width:" ++ py_str width ++ "px; height:" ++ py_str height
                ++ "px; " ++ rest)
  /\ (forall x y width height,
        subscript bb "x" = Ok x -> subscript bb "y" = Ok y ->
        subscript bb "width" = Ok width -> subscript bb "height" = Ok height ->
        position_css d =
          Ok ("position:absolute; left:" ++ py_str x ++ "px; top:" ++ py_str y
              ++ "px; width:" ++ py_str width ++ "px; height:" ++ py_str height
              ++ "px; ")).
Proof.
  intros Hbb.
  assert (Hpos : position_css d =
                 (x <- subscript bb "x" ;; y <- subscript bb "y" ;;
                  width <- subscript bb "width" ;; height <- subscript bb "height" ;;
                  Ok ("position:absolute; left:" ++ py_str x ++ "px; top:" ++ py_str y
                      ++ "px; width:" ++ py_str width ++ "px; height:" ++ py_str height
                      ++ "px; "))).
  { unfold position_css, has_key. simpl subscript. rewrite Hbb. reflexivity. }
  split.
  - intros css H.
    apply node_css_ok in H as (p & l & c & g & b & Hp & _ & _ & _ & _ & ->).
    rewrite Hpos in Hp.
    apply bind_ok in Hp as (x & Hx & Hp). apply bind_ok in Hp as (y & Hy & Hp).
    apply bind_ok in Hp as (w & Hw & Hp). apply bind_ok in Hp as (h & Hh & Hp).
    injection Hp as <-.
    exists x, y, w, h, (l ++ c ++ g ++ b).
    split; [exact Hx|]. split; [exact Hy|]. split; [exact Hw|]. split; [exact Hh|].
    now string_assoc.
  - intros x y w h Hx Hy Hw Hh. rewrite Hpos, Hx, Hy, Hw, Hh. reflexivity.
Qed.

(** C5. A node whose [layoutMode] is present (with a value Python takes as
    true, as HORIZONTAL and VERTICAL are) gets a flex layout: direction row
    for HORIZONTAL and column otherwise, gap [itemSpacing] (default 0),
    padding top, right, bottom, left (default 0 each), [align-items] the
    lowercase of [primaryAxisAlignItems] and [justify-content] the lowercase
    of [counterAxisAlignItems] (default "min" each). *)
Theorem layout_mode_flex (d : dict) (mode : value) (css : string) :
  lookup "layoutMode" d = Some mode ->
  truthy mode = true ->
  node_css d = Ok css ->
  exists before after align justify,
    py_lower (get d "primaryAxisAlignItems" (VStr "MIN")) = Ok align
    /\ py_lower (get d "counterAxisAlignItems" (VStr "MIN")) = Ok justify
    /\ (lookup "primaryAxisAlignItems" d = None -> align = "min")
    /\ (lookup "counterAxisAlignItems" d = None -> justify = "min")
    /\ css = before
             ++ "display:flex; flex-direction:"
             ++ (if eq_str mode "HORIZONTAL" then "row" else "column")
             ++ "; gap:" ++ py_str (get d "itemSpacing" (VInt 0))
             ++ "px; padding:" ++ py_str (get d "paddingTop" (VInt 0))
             ++ "px " ++ py_str (get d "paddingRight" (VInt 0))
             ++ "px " ++ py_str (get d "paddingBottom" (VInt 0))
             ++ "px " ++ py_str (get d "paddingLeft" (VInt 0))
             ++ "px; align-items:" ++ align
             ++ "; justify-content:" ++ justify ++ "; "
             ++ after.
Proof.
  intros Hmode Htrue H.
  apply node_css_ok in H as (p & l & c & g & b & _ & Hl & _ & _ & _ & ->).
  unfold layout_css in Hl. unfold get at 1 in Hl. simpl subscript in Hl.
  rewrite Hmode, Htrue in Hl. simpl bind at 1 in Hl.
  apply bind_ok in Hl as (align & Ha & Hl).
  apply bind_ok in Hl as (justify & Hj & Hl). injection Hl as <-.
  exists p, (c ++ g ++ b), align, justify.
  split; [exact Ha|]. split; [exact Hj|]. split; [|split].
  - intros Hnone. unfold get in Ha. rewrite Hnone in Ha. now injection Ha as <-.
  - intros Hnone. unfold get in Hj. rewrite Hnone in Hj. now injection Hj as <-.
  - destruct (eq_str mode "HORIZONTAL"); now string_assoc.
Qed.

(** ** Colours *)

Lemma trunc_truncation (f : float) (s : bool) (m : positive) (e z : Z) :
  Prim2SF f = S754_finite s m e ->
  truncation_of s m e z ->
  FloatRepr.trunc f = Ok z.
Proof.
  intros Hf (a & Ha & -> & Hlo & Hhi).
  unfold FloatRepr.trunc. rewrite Hf. f_equal.
  assert (Hval : (if (0 <=? e)%Z then Zpos m * 2 ^ e else Zpos m / 2 ^ (- e))%Z = a).
  { destruct (Z.leb_spec 0 e) as [He|He].
    - rewrite (Z.max_r (- e) 0), (Z.max_l e 0) in Hlo, Hhi by lia.
      change (2 ^ 0)%Z with 1%Z in Hlo, Hhi. lia.
    - rewrite (Z.max_l (- e) 0), (Z.max_r e 0) in Hlo, Hhi by lia.
      change (2 ^ 0)%Z with 1%Z in Hlo, Hhi.
      assert (Hpow : (0 < 2 ^ (- e))%Z) by (apply Z.pow_pos_nonneg; lia).
      set (D := (2 ^ (- e))%Z) in *.
      symmetry. apply Z.div_unique with (r := (Zpos m - D * a)%Z); [left|]; nia. }
  rewrite Hval. reflexivity.
Qed.

Lemma channel_of_ok (c : dict) (k : string) (x : value) (n : Z) :
  lookup k c = Some x -> channel_of x n -> channel (VDict c) k = Ok n.
Proof.
  intros Hk Hx. unfold channel. simpl subscript. rewrite Hk. simpl bind.
  destruct x as [| | z | f | | |]; simpl in Hx; try contradiction.
  - subst n. reflexivity.
  - simpl. destruct (Prim2SF (f * 255)%float) as [sg|sg| |sg m e] eqn:Hp; try contradiction.
    + subst n. unfold FloatRepr.trunc. now rewrite Hp.
    + now apply trunc_truncation with sg m e.
Qed.

(** C3. The colour of a fill: a SOLID fill gives [rgba(R,G,B,A)] where each
    of R, G, B is its channel times 255 with the fraction cut off (not
    rounded) and A is the fill's [opacity] as it prints, 1 when absent; any
    other fill gives the empty string. *)
Theorem rgba_from_fill_color (fill : dict) :
  (eq_str (get fill "type" VNone) "SOLID" = false ->
   rgba_from_fill (VDict fill) = Ok "")
  /\ (forall (c : dict) (r g b : value) (R G B : Z),
        lookup "type" fill = Some (VStr "SOLID") ->
        lookup "color" fill = Some (VDict c) ->
        lookup "r" c = Some r -> lookup "g" c = Some g -> lookup "b" c = Some b ->
        channel_of r R -> channel_of g G -> channel_of b B ->
        rgba_from_fill (VDict fill) =
          Ok ("rgba(" ++ str_of_Z R ++ "," ++ str_of_Z G ++ "," ++ str_of_Z B ++ ","
              ++ py_str (get fill "opacity" (VInt 1)) ++ ")")).
Proof.
  split.
  - intros Hty. unfold rgba_from_fill. simpl py_get. simpl bind. now rewrite Hty.
  - intros c r g b R G B Hty Hc Hr Hg Hb HR HG HB.
    unfold rgba_from_fill. simpl py_get. simpl bind.
    unfold get at 1. rewrite Hty. simpl eq_str. cbv iota.
    simpl subscript. rewrite Hc. simpl bind.
    rewrite (channel_of_ok c "r" r R Hr HR). simpl bind.
    rewrite (channel_of_ok c "g" g G Hg HG). simpl bind.
    rewrite (channel_of_ok c "b" b B Hb HB). reflexivity.
Qed.

Lemma channel_of_float (f : float) (s : bool) (m : positive) (e a : Z) :
  Prim2SF (f * 255)%float = S754_finite s m e ->
  (0 <=? a)%Z
  && (a * 2 ^ Z.max (- e) 0 <=? Zpos m * 2 ^ Z.max e 0)%Z
  && (Zpos m * 2 ^ Z.max e 0 <? (a + 1) * 2 ^ Z.max (- e) 0)%Z = true ->
  channel_of (VFloat f) (if s then - a else a).
Proof.
  intros Hf H. apply andb_prop in H as (H & Hhi). apply andb_prop in H as (Ha & Hlo).
  unfold channel_of. rewrite Hf. exists a.
  split; [now apply Z.leb_le|]. split; [reflexivity|].
  split; [now apply Z.leb_le | now apply Z.ltb_lt].
Qed.

Lemma rgba_from_fill_red :
  rgba_from_fill (VDict red_fill) = Ok "rgba(255,0,0,0.5)"
  /\ rgba_from_fill (VDict pastel_fill) = Ok "rgba(127,191,255,1)"
  /\ rgba_from_fill (VDict [("type", VStr "IMAGE"); ("opacity", VFloat 0.5)]) = Ok "".
Proof.
  split; [|split].
  - refine (eq_trans
              (proj2 (rgba_from_fill_color red_fill)
                     [("r", VInt 1); ("g", VInt 0); ("b", VInt 0)]
                     (VInt 1) (VInt 0) (VInt 0) 255%Z 0%Z 0%Z
                     eq_refl eq_refl eq_refl eq_refl eq_refl eq_refl eq_refl eq_refl) _).
    vm_compute. reflexivity.
  - refine (eq_trans
              (proj2 (rgba_from_fill_color pastel_fill)
                     [("r", VFloat 0.5); ("g", VFloat 0.75); ("b", VFloat 1)]
                     (VFloat 0.5) (VFloat 0.75) (VFloat 1) 127%Z 191%Z 255%Z
                     eq_refl eq_refl eq_refl eq_refl eq_refl
                     (channel_of_float 0.5 false 8972014882652160 (-46) 127 eq_refl eq_refl)
                     (channel_of_float 0.75 false 6729011161989120 (-45) 191 eq_refl eq_refl)
                     (channel_of_float 1 false 8972014882652160 (-45) 255 eq_refl eq_refl))
              _).
    vm_compute. reflexivity.
  - exact (proj1 (rgba_from_fill_color [("type", VStr "IMAGE"); ("opacity", VFloat 0.5)])
                 eq_refl).
Defined.

(** ** The grid rule and a missing [count] *)

(** C6. At a COLUMNS grid without [count] the code raises nothing, where
    the claim has a hard error: the style is produced, with [None] where
    the count would stand. *)
Lemma missing_count_is_no_error :
  node_css grid_without_count =
    Ok "display:grid; grid-template-columns: repeat(None, 1fr); column-gap: 10px; "
  /\ ~ (exists e, node_css grid_without_count = Raise e).
Proof.
  split.
  - vm_compute. reflexivity.
  - intros (e & H). vm_compute in H. discriminate H.
Qed.

(** The same at every node whose first layout grid is a COLUMNS grid with
    no [count]: [g.get('count')] is [None], the rule writes
    [repeat(None, 1fr)] with the column gap [gutterSize] (default 0), and
    the style is made whenever the other rule groups make theirs. *)
Lemma missing_count_prints_none (d g : dict) (rest : list value) :
  lookup "layoutGrids" d = Some (VList (VDict g :: rest)) ->
  lookup "pattern" g = Some (VStr "COLUMNS") ->
  lookup "count" g = None ->
  grid_css d =
    Ok ("display:grid; grid-template-columns: repeat(None, 1fr); column-gap: "
        ++ py_str (get g "gutterSize" (VInt 0)) ++ "px; ")
  /\ (forall p l c b,
        position_css d = Ok p -> layout_css d = Ok l ->
        constraints_css d = Ok c -> background_css d = Ok b ->
        node_css d =
          Ok (p ++ l ++ c
              ++ ("display:grid; grid-template-columns: repeat(None, 1fr); column-gap: "
                  ++ py_str (get g "gutterSize" (VInt 0)) ++ "px; ")
              ++ b)).
Proof.
  intros Hgrids Hpattern Hcount.
  assert (Hgrid : grid_css d =
                  Ok ("display:grid; grid-template-columns: repeat(None, 1fr); column-gap: "
                      ++ py_str (get g "gutterSize" (VInt 0)) ++ "px; ")).
  { unfold grid_css. unfold get at 1 2. rewrite Hgrids. simpl truthy. cbv iota.
    simpl first. simpl bind. unfold get at 1 2. rewrite Hpattern, Hcount. reflexivity. }
  split; [exact Hgrid|].
  intros p l c b Hp Hl Hc Hb. now apply node_css_groups.
Qed.

Lemma missing_count_prints_none_witness :
  grid_css grid_without_count =
    Ok "display:grid; grid-template-columns: repeat(None, 1fr); column-gap: 10px; ".
Proof.
  exact (proj1 (missing_count_prints_none grid_without_count
                  [("pattern", VStr "COLUMNS"); ("gutterSize", VInt 10)] []
                  eq_refl eq_refl eq_refl)).
Defined.

(** ** A null [fills] *)

Lemma lookup_dict_set_same (k : string) (v : value) (d : dict) :
  lookup k (dict_set k v d) = Some v.
Proof.
  induction d as [|[k' v'] rest IH]; simpl.
  - now rewrite String.eqb_refl.
  - destruct (String.eqb k' k) eqn:E; simpl.
    + now rewrite String.eqb_refl.
    + now rewrite E.
Qed.

Lemma lookup_dict_set_other (k k' : string) (v : value) (d : dict) :
  k' <> k -> lookup k' (dict_set k v d) = lookup k' d.
Proof.
  intros Hne. induction d as [|[k0 v0] rest IH]; simpl.
  - destruct (String.eqb_spec k k'); [congruence | reflexivity].
  - destruct (String.eqb_spec k0 k) as [->|Hk0]; simpl.
    + destruct (String.eqb_spec k k'); [congruence|].
      destruct (String.eqb_spec k k'); [congruence | reflexivity].
    + destruct (String.eqb_spec k0 k'); [reflexivity | exact IH].
Qed.

(** Rewrites the lookups of [d'] into those of [d] for every key that is
    not [fills]. *)
Ltac same_lookups H :=
  unfold get, has_key; cbn [subscript];
  repeat rewrite H by (let E := fresh in intro E; discriminate E).

Section SameButFills.

Variable images_response : value -> result value.
Variables d d' : dict.
Hypothesis Hother : forall k, k <> "fills" -> lookup k d' = lookup k d.
Hypothesis Hfills : fills_of d' = fills_of d.

Lemma node_css_same_but_fills : node_css d' = node_css d.
Proof.
  unfold node_css.
  replace (position_css d') with (position_css d)
    by (unfold position_css; now same_lookups Hother).
  replace (layout_css d') with (layout_css d)
    by (unfold layout_css; now same_lookups Hother).
  replace (constraints_css d') with (constraints_css d)
    by (unfold constraints_css; now same_lookups Hother).
  replace (grid_css d') with (grid_css d)
    by (unfold grid_css; now same_lookups Hother).
  replace (background_css d') with (background_css d)
    by (unfold background_css; rewrite Hfills; now same_lookups Hother).
  reflexivity.
Qed.

Lemma node_element_same_but_fills :
  node_element images_response d' = node_element images_response d.
Proof.
  unfold node_element. rewrite node_css_same_but_fills.
  unfold text_color. rewrite Hfills. now same_lookups Hother.
Qed.

Lemma process_node_same_but_fills :
  process_node images_response (VDict d') = process_node images_response (VDict d).
Proof.
  rewrite !process_node_unfold, node_element_same_but_fills.
  now rewrite Hother by discriminate.
Qed.

End SameButFills.

Lemma fills_of_empty (d : dict) :
  lookup "fills" d = None \/ lookup "fills" d = Some VNone
  \/ lookup "fills" d = Some (VList []) ->
  fills_of d = VList [].
Proof.
  unfold fills_of, get. now intros [-> | [-> | ->]].
Qed.

Lemma background_css_no_fills (d : dict) :
  fills_of d = VList [] -> background_css d = Ok "".
Proof.
  unfold background_css. intros ->. now destruct (negb _).
Qed.

Lemma text_color_no_fills (d : dict) :
  fills_of d = VList [] -> text_color d = Ok "black".
Proof.
  unfold text_color. now intros ->.
Qed.

(** ** The three kinds of element *)

Section Elements.

Variable images_response : value -> result value.

Local Notation "'render'" := (process_node images_response).
Local Notation "'element'" := (node_element images_response).

Lemma text_element_ok (d : dict) (own : string) :
  is_text d = true ->
  element d = Ok own ->
  exists (css : string) (style : dict) (color : string),
    node_css d = Ok css
    /\ get d "style" (VDict []) = VDict style
    /\ text_color d = Ok color
    /\ own = "<p style=" ++ dq ++ css
             ++ "font-size:" ++ py_str (get style "fontSize" (VInt 12))
             ++ "px; color:" ++ color ++ ";" ++ dq ++ ">"
             ++ py_str (get d "characters" (VStr "")) ++ "</p>".
Proof.
  unfold is_text, node_element. intros Ht H.
  apply bind_ok in H as (css & Hcss & H). rewrite Ht in H.
  apply bind_ok in H as (size & Hsize & H).
  apply bind_ok in H as (color & Hcolor & H). injection H as <-.
  destruct (get d "style" (VDict [])) as [| | | | | |style] eqn:Hstyle;
    try discriminate Hsize.
  simpl in Hsize. injection Hsize as <-.
  now exists css, style, color.
Qed.

(** C10. A [fills] that is present and null is rendered as an empty list
    of fills is: the same markup and the same style, no error; no
    background-color for the node, and the colour [black] for a TEXT. *)
Theorem null_fills_as_empty (d : dict) :
  lookup "fills" d = Some VNone ->
  render (VDict d) = render (VDict (dict_set "fills" (VList []) d))
  /\ node_css d = node_css (dict_set "fills" (VList []) d)
  /\ background_css d = Ok ""
  /\ text_color d = Ok "black".
Proof.
  intros Hnull.
  assert (Hother : forall k, k <> "fills" ->
                             lookup k (dict_set "fills" (VList []) d) = lookup k d)
    by (intros k Hk; now apply lookup_dict_set_other).
  assert (Hd : fills_of d = VList []) by (apply fills_of_empty; auto).
  assert (Hfills : fills_of (dict_set "fills" (VList []) d) = fills_of d).
  { rewrite Hd. apply fills_of_empty. right. right. apply lookup_dict_set_same. }
  split; [|split; [|split]].
  - symmetry. now apply process_node_same_but_fills.
  - symmetry. now apply node_css_same_but_fills.
  - now apply background_css_no_fills.
  - now apply text_color_no_fills.
Qed.

(** C7. The style of a TEXT's paragraph ends with [font-size], the
    [fontSize] of the node's [style] (default 12) in px, and then [color]:
    the colour of the first fill when that fill is SOLID, and [black] when
    [fills] is absent, null or empty, or its first entry is not SOLID. *)
Theorem text_style_font_and_color (d : dict) (own : string) :
  is_text d = true ->
  element d = Ok own ->
  exists (css : string) (style : dict) (color : string),
    node_css d = Ok css
    /\ get d "style" (VDict []) = VDict style
    /\ own = "<p style=" ++ dq ++ css
             ++ "font-size:" ++ py_str (get style "fontSize" (VInt 12))
             ++ "px; color:" ++ color ++ ";" ++ dq ++ ">"
             ++ py_str (get d "characters" (VStr "")) ++ "</p>"
    /\ (lookup "style" d = None -> get style "fontSize" (VInt 12) = VInt 12)
    /\ (lookup "fills" d = None \/ lookup "fills" d = Some VNone
        \/ lookup "fills" d = Some (VList []) -> color = "black")
    /\ (forall fill rest,
          lookup "fills" d = Some (VList (fill :: rest)) ->
          exists ty,
            py_get fill "type" VNone = Ok ty
            /\ (eq_str ty "SOLID" = true -> rgba_from_fill fill = Ok color)
            /\ (eq_str ty "SOLID" = false -> color = "black")).
Proof.
  intros Ht H.
  destruct (text_element_ok d own Ht H) as (css & style & color & Hcss & Hstyle & Hcolor & ->).
  exists css, style, color.
  split; [exact Hcss|]. split; [exact Hstyle|]. split; [reflexivity|].
  split; [|split].
  - intros Hnone. unfold get in Hstyle. rewrite Hnone in Hstyle.
    now injection Hstyle as <-.
  - intros Hempty. apply fills_of_empty, text_color_no_fills in Hempty. congruence.
  - intros fill rest Hfills. unfold text_color, fills_of, get in Hcolor.
    rewrite Hfills in Hcolor. simpl in Hcolor.
    apply bind_ok in Hcolor as (ty & Hty & Hcolor). exists ty.
    split; [exact Hty|]. split; intros Hsolid; rewrite Hsolid in Hcolor.
    + exact Hcolor.
    + now injection Hcolor as <-.
Qed.

(** C1, amended. The text of a TEXT's paragraph is the node's [characters]
    (default the empty string) as they are, nothing escaped: the element
    ends with them and the closing tag. *)
Theorem text_content_verbatim (d : dict) (own : string) :
  is_text d = true ->
  element d = Ok own ->
  exists start,
    own = "<p style=" ++ dq ++ start ++ dq ++ ">"
          ++ py_str (get d "characters" (VStr "")) ++ "</p>"
    /\ (lookup "characters" d = None ->
        own = "<p style=" ++ dq ++ start ++ dq ++ "></p>")
    /\ (forall s, lookup "characters" d = Some (VStr s) ->
        own = "<p style=" ++ dq ++ start ++ dq ++ ">" ++ s ++ "</p>").
Proof.
  intros Ht H.
  destruct (text_element_ok d own Ht H) as (css & style & color & _ & _ & _ & ->).
  exists (css ++ "font-size:" ++ py_str (get style "fontSize" (VInt 12))
              ++ "px; color:" ++ color ++ ";").
  split; [now string_assoc|]. split.
  - intros Hnone. unfold get at 2. rewrite Hnone. now string_assoc.
  - intros s Hs. unfold get at 2. rewrite Hs. now string_assoc.
Qed.

Lemma image_is_not_text (d : dict) : is_image d = true -> is_text d = false.
Proof.
  unfold is_image, is_text. destruct (get d "type" VNone); simpl; try discriminate.
  intros H. apply String.eqb_eq in H. now subst.
Qed.

Lemma child_failure_aborts (parent : dict) (own : string)
      (before after : list value) (child : value) (e : exn) :
  element parent = Ok own ->
  lookup "children" parent = Some (VList (before ++ child :: after)) ->
  Forall (fun c => succeeds (render c)) before ->
  render child = Raise e ->
  render (VDict parent) = Raise e.
Proof.
  intros Hown Hchildren Hbefore Hchild.
  rewrite process_node_unfold, Hown, Hchildren. simpl. clear Hown Hchildren.
  generalize own. induction Hbefore as [|c before (h & Hc) _ IH]; intros html; simpl.
  - now rewrite Hchild.
  - rewrite Hc. simpl. apply IH.
Qed.

(** An IMAGE whose id is no key of the endpoint's [images] is written as a
    self-closing image element with an empty source, and nothing is
    raised; when the request itself fails, what it raised propagates: out
    of the element, out of the node's rendering, and out of the rendering
    of a parent that reaches the node. *)
Theorem image_without_url (d : dict) (id css : string) :
  is_image d = true ->
  lookup "id" d = Some (VStr id) ->
  node_css d = Ok css ->
  (forall body images,
     images_response (VStr id) = Ok body ->
     subscript body "images" = Ok (VDict images) ->
     lookup id images = None ->
     element d = Ok ("<img src=" ++ dq ++ dq ++ " style=" ++ dq ++ css ++ dq ++ " />"))
  /\ (forall e,
        images_response (VStr id) = Raise e ->
        element d = Raise e
        /\ render (VDict d) = Raise e
        /\ (forall parent own before after,
              element parent = Ok own ->
              lookup "children" parent = Some (VList (before ++ VDict d :: after)) ->
              Forall (fun c => succeeds (render c)) before ->
              render (VDict parent) = Raise e)).
Proof.
  intros Himage Hid Hcss.
  assert (Helement : element d =
                     (src <- get_image_url images_response (VStr id) ;;
                      Ok ("<img src=" ++ dq ++ py_str src ++ dq
                          ++ " style=" ++ dq ++ css ++ dq ++ " />"))).
  { unfold node_element. rewrite Hcss. simpl bind at 1.
    fold (is_text d). fold (is_image d).
    rewrite (image_is_not_text d Himage), Himage.
    simpl subscript. now rewrite Hid. }
  split.
  - intros body images Hbody Himages Hnone.
    rewrite Helement. unfold get_image_url. rewrite Hbody. simpl bind at 2.
    rewrite Himages. simpl. unfold get. now rewrite Hnone.
  - intros e Hfail.
    assert (He : element d = Raise e).
    { rewrite Helement. unfold get_image_url. now rewrite Hfail. }
    assert (Hr : render (VDict d) = Raise e).
    { rewrite process_node_unfold. now rewrite He. }
    split; [exact He|]. split; [exact Hr|].
    intros parent own before after Hown Hchildren Hbefore.
    now apply child_failure_aborts with own before after (VDict d).
Qed.

End Elements.

(** ** Scanning a style for [background-color] *)

Lemma scan_app (q : nat) (a b : string) : scan q (a ++ b) = scan (scan q a) b.
Proof.
  revert q. induction a as [|c a IH]; intros q; simpl; [reflexivity | apply IH].
Qed.

Lemma scan_found (s : string) : scan 16 s = 16.
Proof.
  induction s as [|c s IH]; simpl; [reflexivity | exact IH].
Qed.

Lemma scan_background_color (q : nat) : scan q background_color = 16.
Proof.
  do 17 (destruct q as [|q]; [reflexivity|]). reflexivity.
Qed.

Lemma prefix_app (a s : string) :
  String.prefix a s = true -> exists rest, s = a ++ rest.
Proof.
  revert s. induction a as [|c a IH]; intros s.
  - intros _. now exists s.
  - destruct s as [|c' s]; simpl; [discriminate|].
    destruct (Ascii.ascii_dec c c') as [<-|]; intros H; [|discriminate H].
    destruct (IH s H) as (rest & ->). now exists rest.
Qed.

Lemma contains_scan (s : string) :
  contains background_color s = true -> forall q, scan q s = 16.
Proof.
  induction s as [|c s IH]; intros H q.
  - discriminate H.
  - cbn [contains] in H. apply orb_prop in H as [H|H].
    + apply prefix_app in H as (rest & ->).
      now rewrite scan_app, scan_background_color, scan_found.
    + cbn [scan]. now apply IH.
Qed.

Lemma scan_not_found (s : string) :
  scan 0 s <> 16 -> contains background_color s = false.
Proof.
  intros H. destruct (contains background_color s) eqn:E; [|reflexivity].
  exfalso. apply H. now apply contains_scan.
Qed.

Local Arguments Ascii.eqb : simpl never.

Lemma scan_without_b (s : string) : string_mem "b" s = false -> scan 0 s = 0.
Proof.
  induction s as [|c s IH]; simpl; [reflexivity|].
  intros H. apply orb_false_elim in H as (Hc & Hs).
  unfold scan_step. simpl. rewrite Ascii.eqb_sym, Hc. now apply IH.
Qed.

Lemma scan_step_calm (q : nat) (c : ascii) :
  q <= 10 -> Ascii.eqb c "-" = false -> scan_step q c <= 10.
Proof.
  intros Hq Hc.
  do 11 (destruct q as [|q];
         [unfold scan_step; simpl; try rewrite Hc;
          repeat match goal with |- context [Ascii.eqb c ?x] => destruct (Ascii.eqb c x) end;
          lia|]).
  lia.
Qed.

Lemma scan_without_dash (s : string) (q : nat) :
  string_mem "-" s = false -> q <= 10 -> scan q s <= 10.
Proof.
  revert q. induction s as [|c s IH]; intros q; simpl; [easy|].
  intros H Hq. apply orb_false_elim in H as (Hc & Hs).
  apply IH; [exact Hs|]. apply scan_step_calm; [exact Hq|].
  now rewrite Ascii.eqb_sym.
Qed.

(** After an inserted text the style goes on with [px], [;] or [,], none
    of which is in [background-color]: the scanner starts afresh. *)
Lemma scan_reset (q : nat) (c : ascii) (rest : string) :
  q <= 10 -> string_mem c "p;," = true -> scan q (String c rest) = scan 0 rest.
Proof.
  intros Hq Hc. cbn [scan]. f_equal.
  assert (Hcases : c = "p"%char \/ c = ";"%char \/ c = ","%char).
  { cbn [string_mem] in Hc.
    destruct (Ascii.eqb_spec c "p"); [now left|].
    destruct (Ascii.eqb_spec c ";"); [now right; left|].
    destruct (Ascii.eqb_spec c ","); [now right; right|]. discriminate Hc. }
  do 11 (destruct q as [|q]; [destruct Hcases as [->|[->| ->]]; reflexivity|]).
  lia.
Qed.

Lemma string_forallb_app (p : ascii -> bool) (a b : string) :
  string_forallb p (a ++ b) = string_forallb p a && string_forallb p b.
Proof.
  induction a as [|c a IH]; simpl; [reflexivity|].
  now rewrite IH, andb_assoc.
Qed.

Lemma string_forallb_take (p : ascii -> bool) (n : nat) (s : string) :
  string_forallb p s = true -> string_forallb p (FloatRepr.take n s) = true.
Proof.
  revert s. induction n as [|n IH]; intros [|c s]; simpl; try reflexivity.
  intros H. apply andb_prop in H as (-> & Hs). now apply IH.
Qed.

Lemma string_forallb_drop (p : ascii -> bool) (n : nat) (s : string) :
  string_forallb p s = true -> string_forallb p (FloatRepr.drop n s) = true.
Proof.
  revert s. induction n as [|n IH]; intros [|c s]; simpl; try easy.
  intros H. apply andb_prop in H as (_ & Hs). now apply IH.
Qed.

Lemma numeric_zeros (n : Z) : string_forallb numeric_char (FloatRepr.zeros n) = true.
Proof.
  unfold FloatRepr.zeros. induction (Z.to_nat n) as [|k IH]; simpl; [reflexivity | exact IH].
Qed.

Lemma numeric_uint (d : Decimal.uint) :
  string_forallb numeric_char (NilEmpty.string_of_uint d) = true.
Proof.
  induction d; simpl; try reflexivity; exact IHd.
Qed.

Lemma numeric_uint_zero (d : Decimal.uint) :
  string_forallb numeric_char (NilZero.string_of_uint d) = true.
Proof.
  unfold NilZero.string_of_uint. destruct d; try reflexivity; apply numeric_uint.
Qed.

Lemma numeric_str_of_Z (z : Z) : string_forallb numeric_char (str_of_Z z) = true.
Proof.
  unfold str_of_Z, NilZero.string_of_int.
  destruct (Z.to_int z) as [d|d].
  - apply numeric_uint_zero.
  - cbn [string_forallb]. now rewrite numeric_uint_zero.
Qed.

Ltac numeric_parts :=
  repeat first
    [ rewrite string_forallb_app
    | rewrite numeric_str_of_Z
    | rewrite numeric_zeros
    | rewrite string_forallb_take by apply numeric_str_of_Z
    | rewrite string_forallb_drop by apply numeric_str_of_Z ];
  try reflexivity.

Lemma numeric_exponent (x : Z) : string_forallb numeric_char (FloatRepr.exponent x) = true.
Proof.
  unfold FloatRepr.exponent.
  destruct (x <? 0)%Z; destruct (Z.abs x <? 10)%Z; now numeric_parts.
Qed.

Lemma numeric_repr_finite (m e : Z) :
  string_forallb numeric_char (FloatRepr.repr_finite m e) = true.
Proof.
  unfold FloatRepr.repr_finite.
  set (d := FloatRepr.strip_zeros _ _ _). clearbody d.
  set (decpt := (_ + FloatRepr.dec_exp d)%Z). clearbody decpt.
  destruct (_ || _).
  - unfold FloatRepr.scientific. destruct (1 <? _)%Z;
      numeric_parts; now rewrite numeric_exponent.
  - unfold FloatRepr.positional.
    destruct (decpt <=? 0)%Z; [now numeric_parts|].
    destruct (_ <=? decpt)%Z; now numeric_parts.
Qed.

Lemma numeric_repr (f : float) : string_forallb numeric_char (FloatRepr.repr f) = true.
Proof.
  unfold FloatRepr.repr, FloatRepr.sign_str.
  destruct (Prim2SF f) as [[]|[]| |[] m e]; try reflexivity;
    apply numeric_repr_finite.
Qed.

Lemma numeric_without_b (s : string) :
  string_forallb numeric_char s = true -> string_mem "b" s = false.
Proof.
  induction s as [|c s IH]; cbn [string_forallb string_mem]; [reflexivity|].
  intros H. apply andb_prop in H as (Hc & Hs). rewrite (IH Hs), orb_false_r.
  destruct (Ascii.eqb_spec "b" c) as [<-|]; [discriminate Hc | reflexivity].
Qed.

Lemma scalar_scan (v : value) : scalar v = true -> scan 0 (py_str v) = 0.
Proof.
  destruct v as [|[]|z|f| | |]; try discriminate; intros _; try reflexivity;
    apply scan_without_b, numeric_without_b; cbn [py_str py_repr].
  - apply numeric_str_of_Z.
  - apply numeric_repr.
Qed.

Lemma lower_char_dash (c : ascii) :
  is_word_char c = true -> Ascii.eqb "-" (lower_char c) = false.
Proof.
  destruct c as [[] [] [] [] [] [] [] []]; vm_compute; congruence.
Qed.

Lemma keyword_without_dash (s : string) :
  string_forallb is_word_char s = true -> string_mem "-" (lower s) = false.
Proof.
  induction s as [|c s IH]; cbn [string_forallb lower string_mem]; [reflexivity|].
  intros H. apply andb_prop in H as (Hc & Hs).
  now rewrite (lower_char_dash c Hc), (IH Hs).
Qed.

Lemma keyword_scan (v : value) (text : string) :
  keyword v = true -> py_lower v = Ok text -> scan 0 text <= 10.
Proof.
  destruct v; try discriminate. simpl. intros Hk H. injection H as <-.
  apply scan_without_dash; [now apply keyword_without_dash | lia].
Qed.

Lemma subscript_field (p : value -> bool) (d : dict) (k : string) (x : value) :
  field_is p k d = true -> subscript (VDict d) k = Ok x -> p x = true.
Proof.
  unfold field_is. simpl. destruct (lookup k d); [|discriminate].
  intros Hp H. now injection H as <-.
Qed.

Lemma get_field (p : value -> bool) (d : dict) (k : string) (default : value) :
  field_is p k d = true -> p default = true -> p (get d k default) = true.
Proof.
  unfold field_is, get. now destruct (lookup k d).
Qed.

Lemma Ok_inj {A : Type} (a b : A) : Ok a = Ok b -> a = b.
Proof. intros H. now injection H. Qed.

(** Reads a style through, piece by piece: a literal piece by computation,
    an inserted text by what is known of it. *)
Ltac scan_piece :=
  match goal with
  | H : scan 0 ?t = 0 |- context [scan 0 ?t] => rewrite H
  | H : scan 0 ?t <= 10 |- context [scan (scan 0 ?t) (String ?c ?r)] =>
      rewrite (scan_reset (scan 0 t) c r H eq_refl)
  | |- context [scan 0 (String ?c ?s)] =>
      let r := eval vm_compute in (scan 0 (String c s)) in
      lazymatch r with 0 => change (scan 0 (String c s)) with 0 end
  end.

Ltac scan_through := rewrite ?scan_app; repeat scan_piece; try reflexivity.

Lemma scan_position (d : dict) (p : string) :
  box_typed d = true -> position_css d = Ok p -> scan 0 p = 0.
Proof.
  unfold box_typed, position_css, has_key. cbn [subscript].
  destruct (lookup "absoluteBoundingBox" d) as [bb|];
    [|intros _ H; apply Ok_inj in H as <-; reflexivity].
  cbn [bind]. destruct bb as [| | | | | |bb]; try (intros _ H; discriminate H).
  intros Htyped H.
  apply andb_prop in Htyped as (Htyped & Hh). apply andb_prop in Htyped as (Htyped & Hw).
  apply andb_prop in Htyped as (Hx & Hy).
  apply bind_ok in H as (x & Ex & H). apply bind_ok in H as (y & Ey & H).
  apply bind_ok in H as (w & Ew & H). apply bind_ok in H as (h & Eh & H).
  apply Ok_inj in H as <-.
  apply (subscript_field _ _ _ _ Hx), scalar_scan in Ex.
  apply (subscript_field _ _ _ _ Hy), scalar_scan in Ey.
  apply (subscript_field _ _ _ _ Hw), scalar_scan in Ew.
  apply (subscript_field _ _ _ _ Hh), scalar_scan in Eh.
  now scan_through.
Qed.

Lemma scan_layout (d : dict) (l : string) :
  layout_typed d = true -> layout_css d = Ok l -> scan 0 l = 0.
Proof.
  unfold layout_typed, layout_css. intros Htyped H.
  destruct (truthy (get d "layoutMode" VNone));
    [|apply Ok_inj in H as <-; reflexivity].
  apply andb_prop in Htyped as (Htyped & Hjustify).
  apply andb_prop in Htyped as (Htyped & Halign).
  apply andb_prop in Htyped as (Htyped & Hleft).
  apply andb_prop in Htyped as (Htyped & Hbottom).
  apply andb_prop in Htyped as (Htyped & Hright).
  apply andb_prop in Htyped as (Hgap & Htop).
  apply bind_ok in H as (mode & _ & H).
  apply bind_ok in H as (align & Ea & H).
  apply bind_ok in H as (justify & Ej & H).
  apply Ok_inj in H as <-.
  apply keyword_scan in Ea; [|now apply get_field].
  apply keyword_scan in Ej; [|now apply get_field].
  assert (Egap := scalar_scan _ (get_field scalar d "itemSpacing" (VInt 0) Hgap eq_refl)).
  assert (Etop := scalar_scan _ (get_field scalar d "paddingTop" (VInt 0) Htop eq_refl)).
  assert (Eright := scalar_scan _ (get_field scalar d "paddingRight" (VInt 0) Hright eq_refl)).
  assert (Ebottom := scalar_scan _ (get_field scalar d "paddingBottom" (VInt 0) Hbottom eq_refl)).
  assert (Eleft := scalar_scan _ (get_field scalar d "paddingLeft" (VInt 0) Hleft eq_refl)).
  destruct (eq_str mode "HORIZONTAL"); now scan_through.
Qed.

Lemma scan_constraints (d : dict) (c : string) :
  constraints_css d = Ok c -> scan 0 c = 0.
Proof.
  unfold constraints_css. intros H.
  apply bind_ok in H as (h & _ & H). apply bind_ok in H as (v & _ & H).
  apply Ok_inj in H as <-.
  destruct (eq_str h "STRETCH"), (eq_str h "CENTER"),
    (eq_str v "STRETCH"), (eq_str v "CENTER"); reflexivity.
Qed.

Lemma scan_grid (d : dict) (g : string) :
  grid_typed d = true -> grid_css d = Ok g -> scan 0 g = 0.
Proof.
  unfold grid_typed, grid_css, get. intros Htyped H.
  destruct (lookup "layoutGrids" d) as [grids|];
    [|apply Ok_inj in H as <-; reflexivity].
  destruct (truthy grids); [|apply Ok_inj in H as <-; reflexivity].
  apply bind_ok in H as (first_grid & Hfirst & H).
  apply bind_ok in H as (pattern & Hpattern & H).
  destruct (eq_str pattern "COLUMNS"); [|apply Ok_inj in H as <-; reflexivity].
  destruct first_grid as [| | | | | |grid]; try discriminate Hpattern.
  destruct grids as [| | | | |[|x rest]|]; try discriminate Hfirst.
  - simpl in Hfirst. destruct s; discriminate Hfirst.
  - simpl in Hfirst. apply Ok_inj in Hfirst as ->.
    apply andb_prop in Htyped as (Hcount & Hgutter).
    cbn [py_get bind] in H. apply Ok_inj in H as <-.
    assert (Ecount := scalar_scan _ (get_field scalar grid "count" VNone Hcount eq_refl)).
    assert (Egutter := scalar_scan _ (get_field scalar grid "gutterSize" (VInt 0) Hgutter eq_refl)).
    now scan_through.
Qed.

Lemma contains_unfold (needle s : string) :
  contains needle s =
  String.prefix needle s
  || match s with EmptyString => false | String _ s' => contains needle s' end.
Proof. destruct s; reflexivity. Qed.

Lemma prefix_of_app (a b : string) : String.prefix a (a ++ b) = true.
Proof.
  induction a as [|c a IH]; simpl.
  - now destruct b.
  - destruct (Ascii.ascii_dec c c); [exact IH | congruence].
Qed.

Lemma contains_middle (needle a b : string) :
  contains needle (a ++ needle ++ b) = true.
Proof.
  induction a as [|c a IH].
  - cbn [append]. rewrite contains_unfold, prefix_of_app. reflexivity.
  - cbn [append]. rewrite contains_unfold, IH. apply orb_true_r.
Qed.

Lemma background_css_text (d : dict) : is_text d = true -> background_css d = Ok "".
Proof.
  unfold is_text, background_css. now intros ->.
Qed.

(** C2. The style of a TEXT never has a background-color: the background
    rule adds nothing to it whatever its [fills] are, and, its printed
    fields typed as the data model has them, the text [background-color]
    occurs nowhere in it. The style of any other node whose first fill
    gives a colour ends with the background-color of that colour. *)
Theorem background_color_only_without_text (d : dict) (css : string) :
  node_css d = Ok css ->
  (is_text d = true ->
   background_css d = Ok ""
   /\ (well_typed d = true -> contains "background-color" css = false))
  /\ (is_text d = false ->
      forall fill rest color,
        lookup "fills" d = Some (VList (fill :: rest)) ->
        rgba_from_fill fill = Ok color ->
        color <> "" ->
        (exists before, css = before ++ "background-color: " ++ color ++ "; ")
        /\ contains ("background-color: " ++ color ++ "; ") css = true).
Proof.
  intros H.
  apply node_css_ok in H as (p & l & c & g & b & Hp & Hl & Hc & Hg & Hb & ->).
  split.
  - intros Htext. split; [now apply background_css_text|].
    intros Htyped. unfold well_typed in Htyped.
    apply andb_prop in Htyped as (Htyped & Hgrid).
    apply andb_prop in Htyped as (Hbox & Hlayout).
    rewrite (background_css_text d Htext) in Hb. apply Ok_inj in Hb as <-.
    apply scan_not_found. rewrite !scan_app.
    rewrite (scan_position d p Hbox Hp), (scan_layout d l Hlayout Hl),
      (scan_constraints d c Hc), (scan_grid d g Hgrid Hg).
    discriminate.
  - intros Htext fill rest color Hfills Hcolor Hne.
    assert (Hback : b = "background-color: " ++ color ++ "; ").
    { unfold background_css in Hb. fold (is_text d) in Hb. rewrite Htext in Hb.
      unfold fills_of, get in Hb. rewrite Hfills in Hb.
      cbn [truthy negb first bind] in Hb. rewrite Hcolor in Hb.
      cbn [bind truthy] in Hb.
      destruct (String.eqb_spec color ""); [contradiction|].
      cbn [negb] in Hb. now apply Ok_inj in Hb. }
    subst b. split.
    + exists (p ++ l ++ c ++ g). now string_assoc.
    + replace (p ++ l ++ c ++ g ++ "background-color: " ++ color ++ "; ")
        with ((p ++ l ++ c ++ g) ++ ("background-color: " ++ color ++ "; ") ++ "").
      * apply contains_middle.
      * rewrite string_app_nil_r. now string_assoc.
Qed.

Lemma background_color_only_without_text_witness :
  is_text text_on_red = true
  /\ well_typed text_on_red = true
  /\ (exists css,
        node_css text_on_red = Ok css /\ contains "background-color" css = false)
  /\ is_text frame_on_red = false
  /\ (exists before,
        node_css frame_on_red
        = Ok (before ++ "background-color: " ++ "rgba(255,0,0,0.5)" ++ "; ")).
Proof.
  assert (Htext : exists css, node_css text_on_red = Ok css)
    by (eexists; vm_compute; reflexivity).
  assert (Hframe : exists css, node_css frame_on_red = Ok css)
    by (eexists; vm_compute; reflexivity).
  assert (Hred : rgba_from_fill (VDict red_fill) = Ok "rgba(255,0,0,0.5)")
    by (vm_compute; reflexivity).
  destruct Htext as (css & Hcss). destruct Hframe as (css' & Hcss').
  split; [reflexivity|]. split; [reflexivity|]. split; [|split; [reflexivity|]].
  - exists css. split; [exact Hcss|].
    exact (proj2 (proj1 (background_color_only_without_text text_on_red css Hcss) eq_refl)
                 eq_refl).
  - destruct (proj2 (background_color_only_without_text frame_on_red css' Hcss') eq_refl
                    (VDict red_fill) [] "rgba(255,0,0,0.5)" eq_refl Hred)
      as ((before & ->) & _); [discriminate|].
    exists before. exact Hcss'.
Defined.

(** ** The specification's examples *)

Lemma process_node_flat_witness :
  get hello_page "children" (VList []) = VList [VDict hello_text]
  /\ process_node no_images (VDict hello_page) = Ok (empty_div ++ hello_markup).
Proof.
  split; [reflexivity|].
  rewrite (proj1 (process_node_flat no_images hello_page [VDict hello_text] eq_refl)).
  vm_compute. reflexivity.
Defined.

Lemma bounding_box_positions_witness :
  lookup "absoluteBoundingBox" boxed_text = Some box
  /\ node_css boxed_text = Ok box_css
  /\ position_css boxed_text = Ok box_css
  /\ exists x y width height rest,
      subscript box "x" = Ok x /\ subscript box "y" = Ok y
      /\ subscript box "width" = Ok width /\ subscript box "height" = Ok height
      /\ box_css = "position:absolute; left:" ++ py_str x ++ "px; top:" ++ py_str y
                   ++ "px; width:" ++ py_str width ++ "px; height:" ++ py_str height
                   ++ "px; " ++ rest.
Proof.
  assert (Hcss : node_css boxed_text = Ok box_css) by (vm_compute; reflexivity).
  split; [reflexivity|]. split; [exact Hcss|]. split.
  - rewrite (proj2 (bounding_box_positions boxed_text box eq_refl)
                   (VFloat 10.5) (VInt 0) (VFloat 100) (VFloat 40)
                   eq_refl eq_refl eq_refl eq_refl).
    vm_compute. reflexivity.
  - exact (proj1 (bounding_box_positions boxed_text box eq_refl) box_css Hcss).
Defined.

Example bounding_box_any_type :
  node_css boxed_text = Ok box_css
  /\ node_css (dict_set "type" (VStr "IMAGE") boxed_text) = Ok box_css
  /\ node_css (dict_set "type" (VStr "FRAME") boxed_text) = Ok box_css.
Proof. vm_compute. repeat split. Qed.

Lemma layout_mode_flex_witness :
  lookup "layoutMode" flex_row = Some (VStr "HORIZONTAL")
  /\ truthy (VStr "HORIZONTAL") = true
  /\ exists before after,
      node_css flex_row =
        Ok (before
            ++ "display:flex; flex-direction:row; gap:8px; padding:4px 4px 4px 4px; "
            ++ "align-items:min; justify-content:min; " ++ after).
Proof.
  split; [reflexivity|]. split; [reflexivity|].
  destruct (layout_mode_flex flex_row (VStr "HORIZONTAL")
              "display:flex; flex-direction:row; gap:8px; padding:4px 4px 4px 4px; align-items:min; justify-content:min; "
              eq_refl eq_refl eq_refl)
    as (before & after & align & justify & Ha & Hj & Hamin & Hjmin & Hcss).
  exists before, after.
  rewrite (Hamin eq_refl), (Hjmin eq_refl) in Hcss.
  vm_compute. vm_compute in Hcss. now rewrite <- Hcss.
Defined.

Example layout_mode_flex_exact :
  node_css flex_row =
    Ok ("display:flex; flex-direction:row; gap:8px; padding:4px 4px 4px 4px; "
        ++ "align-items:min; justify-content:min; ").
Proof. vm_compute. reflexivity. Qed.

Lemma null_fills_as_empty_witness :
  lookup "fills" boxed_text = Some VNone
  /\ process_node no_images (VDict boxed_text) =
     process_node no_images (VDict (dict_set "fills" (VList []) boxed_text))
  /\ text_color boxed_text = Ok "black".
Proof.
  split; [reflexivity|].
  destruct (null_fills_as_empty no_images boxed_text eq_refl) as (Hr & _ & _ & Hc).
  split; [exact Hr | exact Hc].
Defined.

Lemma text_style_font_and_color_witness :
  is_text hello_text = true
  /\ node_element no_images hello_text = Ok hello_markup
  /\ exists css style color,
      node_css hello_text = Ok css
      /\ get hello_text "style" (VDict []) = VDict style
      /\ hello_markup =
         "<p style=" ++ dq ++ css
         ++ "font-size:" ++ py_str (get style "fontSize" (VInt 12))
         ++ "px; color:" ++ color ++ ";" ++ dq ++ ">"
         ++ py_str (get hello_text "characters" (VStr "")) ++ "</p>"
      /\ rgba_from_fill black_fill = Ok color.
Proof.
  assert (Hown : node_element no_images hello_text = Ok hello_markup)
    by (vm_compute; reflexivity).
  split; [reflexivity|]. split; [exact Hown|].
  destruct (text_style_font_and_color no_images hello_text hello_markup eq_refl Hown)
    as (css & style & color & Hcss & Hstyle & Heq & _ & _ & Hfill).
  exists css, style, color.
  split; [exact Hcss|]. split; [exact Hstyle|]. split; [exact Heq|].
  destruct (Hfill black_fill [] eq_refl) as (ty & Hty & Hsolid & _).
  injection Hty as <-. apply Hsolid. reflexivity.
Defined.

Example hello_page_document :
  process_node no_images (VDict hello_page) = Ok (empty_div ++ hello_markup)
  /\ exists before after,
      full_html (empty_div ++ hello_markup) =
        before ++ "<body>" ++ nl ++ empty_div ++ hello_markup ++ nl ++ "</body>" ++ after.
Proof.
  split; [vm_compute; reflexivity|].
  exists ("<!DOCTYPE html>" ++ nl ++ "<html lang=" ++ dq ++ "en" ++ dq ++ ">" ++ nl
          ++ "<head>" ++ nl ++ "  <meta charset=" ++ dq ++ "UTF-8" ++ dq ++ ">" ++ nl
          ++ "  <title>Figma to HTML</title>" ++ nl
          ++ "  <style>body{position:relative;margin:0;padding:0;}</style>" ++ nl
          ++ "</head>" ++ nl),
    (nl ++ "</html>").
  vm_compute. reflexivity.
Qed.

(** C1 as stated fails: the characters [<b>] reach the markup as they are,
    where escaping them would have written [&lt;b&gt;]. *)
Lemma text_is_not_escaped :
  process_node no_images (VDict bold_text) =
    Ok ("<p style=" ++ dq ++ "font-size:12px; color:black;" ++ dq ++ "><b></p>")
  /\ html_escape "<b>" = "&lt;b&gt;"
  /\ process_node no_images (VDict bold_text) <>
     Ok ("<p style=" ++ dq ++ "font-size:12px; color:black;" ++ dq ++ ">"
         ++ html_escape "<b>" ++ "</p>").
Proof.
  split; [vm_compute; reflexivity|]. split; [reflexivity|].
  vm_compute. discriminate.
Qed.

Lemma text_content_verbatim_witness :
  is_text bold_text = true
  /\ exists start,
      process_node no_images (VDict bold_text) =
        Ok ("<p style=" ++ dq ++ start ++ dq ++ "><b></p>").
Proof.
  split; [reflexivity|].
  assert (Hown : node_element no_images bold_text =
                 Ok ("<p style=" ++ dq ++ "font-size:12px; color:black;" ++ dq ++ "><b></p>"))
    by (vm_compute; reflexivity).
  destruct (text_content_verbatim no_images bold_text _ eq_refl Hown)
    as (start & _ & _ & Hs).
  exists start.
  transitivity (Ok ("<p style=" ++ dq ++ "font-size:12px; color:black;" ++ dq ++ "><b></p>")).
  - vm_compute. reflexivity.
  - f_equal. exact (Hs "<b>" eq_refl).
Defined.

Lemma image_without_url_witness :
  is_image picture = true
  /\ lookup "id" picture = Some (VStr "1:5")
  /\ node_css picture = Ok ""
  /\ process_node no_images (VDict picture)
     = Ok ("<img src=" ++ dq ++ dq ++ " style=" ++ dq ++ dq ++ " />")
  /\ process_node unreachable (VDict picture) = Raise RequestError
  /\ process_node unreachable (VDict album) = Raise RequestError.
Proof.
  split; [reflexivity|]. split; [reflexivity|]. split; [reflexivity|].
  split; [|split].
  - rewrite process_node_unfold.
    rewrite (proj1 (image_without_url no_images picture "1:5" "" eq_refl eq_refl eq_refl)
                   (VDict [("err", VNone); ("images", VDict [])]) []
                   eq_refl eq_refl eq_refl).
    reflexivity.
  - exact (proj1 (proj2 (proj2 (image_without_url unreachable picture "1:5" ""
                                  eq_refl eq_refl eq_refl) RequestError eq_refl))).
  - refine (proj2 (proj2 (proj2 (image_without_url unreachable picture "1:5" ""
                                   eq_refl eq_refl eq_refl) RequestError eq_refl))
                  album empty_div [VDict hello_text] [] eq_refl eq_refl _).
    constructor; [|constructor]. exists hello_markup. vm_compute. reflexivity.
Defined.

(** C8. Where the claim has an empty source the code prints [None]: an id
    that the endpoint maps to [null], as it does for a node it could not
    render, is a key that is present, so [get] does not take its default
    and [get_image_url] returns [None]; nothing is raised. *)
Example image_with_null_url :
  get_image_url null_image (VStr "1:5") = Ok VNone
  /\ process_node null_image (VDict picture)
     = Ok ("<img src=" ++ dq ++ "None" ++ dq ++ " style=" ++ dq ++ dq ++ " />")
  /\ process_node null_image (VDict picture)
     <> Ok ("<img src=" ++ dq ++ dq ++ " style=" ++ dq ++ dq ++ " />").
Proof.
  split; [reflexivity|]. split; [vm_compute; reflexivity|].
  vm_compute. discriminate.
Qed.

(** ** The tree, node by node *)

Lemma value_nested_ind (P : value -> Prop) :
  P VNone -> (forall b, P (VBool b)) -> (forall z, P (VInt z)) ->
  (forall f, P (VFloat f)) -> (forall s, P (VStr s)) ->
  (forall l, Forall P l -> P (VList l)) ->
  (forall d, Forall (fun kv => P (snd kv)) d -> P (VDict d)) ->
  forall v, P v.
Proof.
  intros Hnone Hbool Hint Hfloat Hstr Hlist Hdict.
  fix IH 1. intros [|b|z|f|s|l|d].
  - exact Hnone.
  - apply Hbool.
  - apply Hint.
  - apply Hfloat.
  - apply Hstr.
  - apply Hlist. induction l as [|x l IHl]; constructor; [apply IH | exact IHl].
  - apply Hdict. induction d as [|[k x] d IHd]; constructor; [apply IH | exact IHd].
Qed.

Lemma lookup_Forall (P : value -> Prop) (d : dict) (k : string) (v : value) :
  Forall (fun kv => P (snd kv)) d -> lookup k d = Some v -> P v.
Proof.
  induction 1 as [|[k' x] d Hx _ IH]; simpl; [discriminate|].
  destruct (String.eqb k' k); [|exact IH].
  intros H. now injection H as <-.
Qed.

(** Induction over the nodes of a document: a property of every value that
    is not a dict, and of a dict once it holds of the items of its
    [children] list, holds of every value. *)
Lemma node_ind (P : value -> Prop) :
  (forall v, (forall d, v <> VDict d) -> P v) ->
  (forall d,
     (forall l, lookup "children" d = Some (VList l) -> Forall P l) ->
     P (VDict d)) ->
  forall v, P v.
Proof.
  intros Hother Hnode v.
  assert (H : P v /\ (forall l, v = VList l -> Forall P l)).
  { induction v as [|b|z|f|s|l IHl|d IHd] using value_nested_ind;
      try (split; [apply Hother; discriminate | discriminate]).
    - split; [apply Hother; discriminate|].
      intros l' E. injection E as <-.
      apply Forall_impl with (2 := IHl). now intros x (Hx & _).
    - split; [|discriminate].
      apply Hnode. intros l Hl.
      exact (proj2 (lookup_Forall
                      (fun v => P v /\ (forall l, v = VList l -> Forall P l))
                      d "children" (VList l) IHd Hl) l eq_refl). }
  exact (proj1 H).
Qed.

Lemma preorder_unfold (d : dict) :
  preorder (VDict d) =
  d :: match lookup "children" d with
       | Some (VList l) => flat_map preorder l
       | _ => []
       end.
Proof.
  simpl. f_equal. rewrite dict_case_lookup. reflexivity.
Qed.

Lemma tree_unfold (d : dict) :
  tree (VDict d) =
  match lookup "children" d with
  | Some (VList l) => forallb tree l
  | Some _ => false
  | None => true
  end.
Proof.
  simpl. rewrite dict_case_lookup. reflexivity.
Qed.

Lemma map_result_app {A B : Type} (f : A -> result B) (l1 l2 : list A) :
  map_result f (l1 ++ l2) =
  (ys1 <- map_result f l1 ;; ys2 <- map_result f l2 ;; Ok (ys1 ++ ys2)%list).
Proof.
  induction l1 as [|x l1 IH]; simpl.
  - now destruct (map_result f l2).
  - destruct (f x) as [y|e]; simpl; [|reflexivity].
    rewrite IH. destruct (map_result f l1) as [ys1|e]; simpl; [|reflexivity].
    now destruct (map_result f l2).
Qed.

Lemma map_result_ext {A B : Type} (f g : A -> result B) (l : list A) :
  Forall (fun x => f x = g x) l -> map_result f l = map_result g l.
Proof.
  induction 1 as [|x l Hx _ IH]; simpl; [reflexivity|].
  now rewrite Hx, IH.
Qed.

Lemma join_all_app (a b : list string) :
  join_all (a ++ b)%list = join_all a ++ join_all b.
Proof.
  induction a as [|x a IH].
  - reflexivity.
  - change ((x :: a) ++ b)%list with (x :: (a ++ b)%list).
    now rewrite !join_all_cons, IH, string_app_assoc.
Qed.

Section Preorder.

Variable images_response : value -> result value.

Local Notation "'render'" := (process_node images_response).
Local Notation "'element'" := (node_element images_response).

Local Notation "'flat'" := (flat images_response).

Lemma children_flat (l : list value) :
  Forall flat l ->
  forall html,
    (kids <- map_result render l ;; Ok (html ++ join_all kids)) =
    (xs <- map_result element (flat_map preorder l) ;; Ok (html ++ join_all xs)).
Proof.
  induction 1 as [|c l Hc _ IH]; intros html; [reflexivity|].
  cbn [map_result flat_map]. rewrite map_result_app, Hc.
  destruct (map_result element (preorder c)) as [xs|e]; [|reflexivity].
  cbn [bind]. specialize (IH (html ++ join_all xs)).
  destruct (map_result render l) as [kids|e],
    (map_result element (flat_map preorder l)) as [ys|e'];
    cbn [bind] in *; try discriminate IH.
  - apply Ok_inj in IH. f_equal.
    rewrite join_all_cons, join_all_app, <- !string_app_assoc. exact IH.
  - exact IH.
Qed.

Lemma process_node_preorder (v : value) : tree v = true -> flat v.
Proof.
  induction v as [v Hv | d IH] using node_ind.
  - destruct v; try discriminate. now destruct (Hv d).
  - rewrite tree_unfold. intros Htree. unfold flat.
    rewrite process_node_unfold, preorder_unfold. cbn [map_result].
    destruct (element d) as [html|e]; [|reflexivity]. cbn [bind].
    destruct (lookup "children" d) as [[| | | | |l|]|]; try discriminate Htree.
    + cbn [for_children]. rewrite append_children_map, children_flat.
      * destruct (map_result element (flat_map preorder l)) as [xs|e]; [|reflexivity].
        cbn [bind]. now rewrite join_all_cons.
      * specialize (IH l eq_refl). clear - IH Htree.
        induction IH as [|c l Hc _ IHl]; constructor.
        -- apply Hc. simpl in Htree. now apply andb_prop in Htree.
        -- apply IHl. simpl in Htree. now apply andb_prop in Htree.
    + cbn [map_result bind]. now rewrite join_all_cons, string_app_nil_r.
Qed.

(** X1. The rendering of a tree is the elements of its nodes in depth-first
    preorder, one after the other and nothing else: with the same
    exception when an element raises, and one element for each node when
    none does. *)
Theorem render_is_preorder (v : value) :
  tree v = true ->
  render v = (xs <- map_result element (preorder v) ;; Ok (join_all xs))
  /\ (forall html, render v = Ok html ->
      exists xs,
        Forall2 (fun d x => element d = Ok x /\ is_element x) (preorder v) xs
        /\ html = join_all xs).
Proof.
  intros Htree. split; [now apply process_node_preorder|].
  intros html H. rewrite (process_node_preorder v Htree) in H.
  apply bind_ok in H as (xs & Hxs & H). apply Ok_inj in H as <-.
  exists xs. split; [|reflexivity].
  apply map_result_ok in Hxs.
  induction Hxs as [|d x ds xs Hx _ IH]; constructor; [|exact IH].
  split; [exact Hx | exact (node_element_shape images_response d x Hx)].
Qed.

End Preorder.

Lemma node_element_no_request (r1 r2 : value -> result value) (d : dict) :
  is_image d = false -> node_element r1 d = node_element r2 d.
Proof.
  unfold node_element. fold (is_text d). fold (is_image d). intros ->. reflexivity.
Qed.

Lemma for_children_no_request (r1 r2 : value -> result value) (children : value) :
  (forall l, children = VList l ->
             Forall (fun c => process_node r1 c = process_node r2 c) l) ->
  forall html,
    for_children (process_node r1) children html
    = for_children (process_node r2) children html.
Proof.
  intros H html. destruct children as [| | | |s|l|d]; try reflexivity.
  specialize (H l eq_refl). cbn [for_children]. revert html.
  induction H as [|c l Hc _ IH]; intros html; [reflexivity|].
  cbn [append_children]. rewrite Hc.
  destruct (process_node r2 c); [apply IH | reflexivity].
Qed.

(** X2. Only an IMAGE node asks the images endpoint: the rendering of a
    tree none of whose visited nodes is an IMAGE is the same whatever the
    endpoint would answer. *)
Theorem no_image_no_request (r1 r2 : value -> result value) (v : value) :
  Forall (fun d => is_image d = false) (preorder v) ->
  process_node r1 v = process_node r2 v.
Proof.
  induction v as [v Hv | d IH] using node_ind.
  - intros _. destruct v; try reflexivity. now destruct (Hv d).
  - rewrite preorder_unfold. intros H.
    apply Forall_cons_iff in H as (Hd & Hrest).
    rewrite !process_node_unfold, (node_element_no_request r1 r2 d Hd).
    destruct (node_element r2 d) as [html|e]; [|reflexivity]. cbn [bind].
    destruct (lookup "children" d) as [children|]; [|reflexivity].
    apply for_children_no_request. intros l ->.
    specialize (IH l eq_refl).
    induction IH as [|c l Hc _ IHl]; constructor.
    + apply Hc. cbn [flat_map] in Hrest. now apply Forall_app in Hrest.
    + apply IHl. cbn [flat_map] in Hrest. now apply Forall_app in Hrest.
Qed.

(** ** What of a node is read *)

Section SameObservations.

Variable images_response : value -> result value.
Variables d d' : dict.

Hypothesis Hkeys :
  forall k, In k read_keys -> k <> "fills" -> k <> "layoutGrids" ->
            lookup k d' = lookup k d.
Hypothesis Hfills_truthy : truthy (fills_of d') = truthy (fills_of d).
Hypothesis Hfills_first : first (fills_of d') = first (fills_of d).
Hypothesis Hgrids_truthy :
  truthy (get d' "layoutGrids" (VList [])) = truthy (get d "layoutGrids" (VList [])).
Hypothesis Hgrids_first :
  first (get d' "layoutGrids" (VList [])) = first (get d "layoutGrids" (VList [])).

Ltac read_lookups :=
  unfold get, has_key; cbn [subscript];
  repeat rewrite Hkeys
    by (first [ unfold read_keys; simpl; tauto
              | let E := fresh in intro E; discriminate E ]).

Lemma node_css_observes : node_css d' = node_css d.
Proof.
  unfold node_css.
  replace (position_css d') with (position_css d)
    by (unfold position_css; now read_lookups).
  replace (layout_css d') with (layout_css d)
    by (unfold layout_css; now read_lookups).
  replace (constraints_css d') with (constraints_css d)
    by (unfold constraints_css; now read_lookups).
  replace (grid_css d') with (grid_css d)
    by (unfold grid_css; cbv zeta; now rewrite Hgrids_truthy, Hgrids_first).
  replace (background_css d') with (background_css d)
    by (unfold background_css; cbv zeta;
        rewrite Hfills_truthy, Hfills_first; now read_lookups).
  reflexivity.
Qed.

Lemma node_element_observes :
  node_element images_response d' = node_element images_response d.
Proof.
  unfold node_element. rewrite node_css_observes.
  unfold text_color. cbv zeta. rewrite Hfills_truthy, Hfills_first.
  now read_lookups.
Qed.

Lemma process_node_observes :
  process_node images_response (VDict d') = process_node images_response (VDict d).
Proof.
  rewrite !process_node_unfold, node_element_observes.
  now rewrite Hkeys by (first [ unfold read_keys; simpl; tauto | discriminate ]).
Qed.

End SameObservations.

(** X3. A node is rendered from seventeen of its keys and nothing else: two
    nodes that agree on them render alike, whatever other fields (a name,
    a visibility flag, effects) either of them has. *)
Theorem unread_keys_ignored (images_response : value -> result value) (d d' : dict) :
  (forall k, In k read_keys -> lookup k d' = lookup k d) ->
  process_node images_response (VDict d') = process_node images_response (VDict d).
Proof.
  intros H.
  assert (Hfills : fills_of d' = fills_of d)
    by (unfold fills_of, get; rewrite H by (unfold read_keys; simpl; tauto); reflexivity).
  assert (Hgrids : get d' "layoutGrids" (VList []) = get d "layoutGrids" (VList []))
    by (unfold get; rewrite H by (unfold read_keys; simpl; tauto); reflexivity).
  apply process_node_observes; try congruence.
  intros k Hk _ _. now apply H.
Qed.

(** X4. Of [fills] and of [layoutGrids] only the first entry is read: what
    follows it in the list can be replaced by anything, or dropped, and
    the node renders alike. *)
Theorem only_first_entry (images_response : value -> result value) (d : dict)
        (key : string) (entry : value) (rest rest' : list value) :
  key = "fills" \/ key = "layoutGrids" ->
  lookup key d = Some (VList (entry :: rest)) ->
  process_node images_response (VDict (dict_set key (VList (entry :: rest')) d))
  = process_node images_response (VDict d).
Proof.
  intros Hkey Hentry.
  assert (Hsame := lookup_dict_set_same key (VList (entry :: rest')) d).
  assert (Hother : forall k, k <> key ->
                             lookup k (dict_set key (VList (entry :: rest')) d) = lookup k d)
    by (intros k Hk; now apply lookup_dict_set_other).
  destruct Hkey as [-> | ->]; apply process_node_observes.
  - intros k _ Hk _. now apply Hother.
  - unfold fills_of, get. now rewrite Hsame, Hentry.
  - unfold fills_of, get. now rewrite Hsame, Hentry.
  - unfold get. now rewrite Hother by discriminate.
  - unfold get. now rewrite Hother by discriminate.
  - intros k _ _ Hk. now apply Hother.
  - unfold fills_of, get. now rewrite Hother by discriminate.
  - unfold fills_of, get. now rewrite Hother by discriminate.
  - unfold get. now rewrite Hsame, Hentry.
  - unfold get. now rewrite Hsame, Hentry.
Qed.

(** ** What aborts a rendering *)

Section Aborts.

Variable images_response : value -> result value.

Local Notation "'render'" := (process_node images_response).
Local Notation "'element'" := (node_element images_response).

Lemma css_failure_aborts (d : dict) (e : exn) :
  node_css d = Raise e -> render (VDict d) = Raise e.
Proof.
  intros H. rewrite process_node_unfold. unfold node_element. now rewrite H.
Qed.

Lemma element_failure_aborts (d : dict) (e : exn) :
  element d = Raise e -> render (VDict d) = Raise e.
Proof.
  intros H. rewrite process_node_unfold. now rewrite H.
Qed.

(** X5. A bounding box that cannot be read aborts the rendering of its
    node, whatever else the node holds: with a TypeError when the box is
    not an object, with a KeyError when it lacks [x], [y], [width] or
    [height]. *)
Theorem broken_box_aborts (d : dict) (bb : value) :
  lookup "absoluteBoundingBox" d = Some bb ->
  ((forall b, bb <> VDict b) -> render (VDict d) = Raise TypeError)
  /\ (forall b,
        bb = VDict b ->
        lookup "x" b = None \/ lookup "y" b = None
        \/ lookup "width" b = None \/ lookup "height" b = None ->
        render (VDict d) = Raise KeyError).
Proof.
  intros Hbb.
  assert (Hpos : position_css d =
                 (x <- subscript bb "x" ;; y <- subscript bb "y" ;;
                  width <- subscript bb "width" ;; height <- subscript bb "height" ;;
                  Ok ("position:absolute; left:" ++ py_str x ++ "px; top:" ++ py_str y
                      ++ "px; width:" ++ py_str width ++ "px; height:" ++ py_str height
                      ++ "px; "))).
  { unfold position_css, has_key. simpl subscript. rewrite Hbb. reflexivity. }
  split.
  - intros Hnot. apply css_failure_aborts. unfold node_css. rewrite Hpos.
    destruct bb as [| | | | | |b]; try reflexivity. now destruct (Hnot b).
  - intros b -> Hmissing. apply css_failure_aborts. unfold node_css. rewrite Hpos.
    cbn [subscript].
    destruct (lookup "x" b); [|reflexivity].
    destruct (lookup "y" b); [|reflexivity].
    destruct (lookup "width" b); [|reflexivity].
    destruct (lookup "height" b); [|reflexivity].
    destruct Hmissing as [H|[H|[H|H]]]; discriminate H.
Qed.

(** X6. A first fill that says SOLID and has no [color] raises a KeyError,
    and the node is not rendered: neither as a TEXT, whose colour it would
    give, nor as anything else, whose background it would give. *)
Theorem solid_without_color_aborts (d f : dict) (rest : list value) :
  lookup "fills" d = Some (VList (VDict f :: rest)) ->
  lookup "type" f = Some (VStr "SOLID") ->
  lookup "color" f = None ->
  rgba_from_fill (VDict f) = Raise KeyError
  /\ (is_text d = false ->
      forall p l c g,
        position_css d = Ok p -> layout_css d = Ok l ->
        constraints_css d = Ok c -> grid_css d = Ok g ->
        render (VDict d) = Raise KeyError)
  /\ (is_text d = true ->
      forall css style,
        node_css d = Ok css -> get d "style" (VDict []) = VDict style ->
        render (VDict d) = Raise KeyError).
Proof.
  intros Hfills Htype Hcolor.
  assert (Hrgba : rgba_from_fill (VDict f) = Raise KeyError).
  { unfold rgba_from_fill. cbn [py_get bind subscript]. unfold get.
    now rewrite Htype, Hcolor. }
  assert (Hof : fills_of d = VList (VDict f :: rest))
    by (unfold fills_of, get; now rewrite Hfills).
  split; [exact Hrgba|]. split.
  - intros Htext p l c g Hp Hl Hc Hg. apply css_failure_aborts.
    unfold node_css. rewrite Hp, Hl, Hc, Hg. cbn [bind].
    unfold background_css. fold (is_text d). rewrite Htext, Hof.
    cbn [negb truthy first bind]. now rewrite Hrgba.
  - intros Htext css style Hcss Hstyle. apply element_failure_aborts.
    unfold node_element. fold (is_text d). rewrite Hcss, Htext, Hstyle.
    cbn [bind py_get]. unfold text_color. rewrite Hof.
    cbn [truthy first bind py_get]. unfold get. rewrite Htype.
    cbn [eq_str String.eqb Ascii.eqb Bool.eqb]. now rewrite Hrgba.
Qed.

(** X7. What is not a tree is not rendered. A node that is not an object
    raises an AttributeError, and so does a parent on reaching such a
    child, after the children before it; a [children] that is null, a
    boolean or a number raises a TypeError; an empty [children] list is as
    good as none. *)
Theorem malformed_tree_aborts :
  (forall v, (forall d, v <> VDict d) -> render v = Raise AttributeError)
  /\ (forall d own,
        element d = Ok own ->
        (lookup "children" d = Some (VList []) -> render (VDict d) = Ok own)
        /\ (forall c,
              lookup "children" d = Some c ->
              scalar c = true ->
              render (VDict d) = Raise TypeError)
        /\ (forall before c after,
              lookup "children" d = Some (VList (before ++ c :: after)) ->
              Forall (fun x => succeeds (render x)) before ->
              (forall b, c <> VDict b) ->
              render (VDict d) = Raise AttributeError)).
Proof.
  assert (Hnode : forall v, (forall d, v <> VDict d) -> render v = Raise AttributeError).
  { intros v Hv. destruct v; try reflexivity. now destruct (Hv d). }
  split; [exact Hnode|].
  intros d own Hown. split; [|split].
  - intros H. now rewrite process_node_unfold, Hown, H.
  - intros c H Hc. rewrite process_node_unfold, Hown, H.
    destruct c; try discriminate Hc; reflexivity.
  - intros before c after H Hbefore Hc.
    apply child_failure_aborts with own before after c; try assumption.
    now apply Hnode.
Qed.

(** X8. A null, or anything that has not the method the code calls on it,
    aborts the rendering with an AttributeError: [constraints] or a TEXT's
    [style] that is not an object, an alignment of an auto-layout node
    that is not a string. *)
Theorem missing_method_aborts (d : dict) (p : string) :
  position_css d = Ok p ->
  (forall a,
     truthy (get d "layoutMode" VNone) = true ->
     lookup "primaryAxisAlignItems" d = Some a ->
     (forall s, a <> VStr s) ->
     render (VDict d) = Raise AttributeError)
  /\ (forall c l,
        layout_css d = Ok l ->
        lookup "constraints" d = Some c ->
        (forall b, c <> VDict b) ->
        render (VDict d) = Raise AttributeError)
  /\ (forall s css,
        node_css d = Ok css ->
        is_text d = true ->
        lookup "style" d = Some s ->
        (forall b, s <> VDict b) ->
        render (VDict d) = Raise AttributeError).
Proof.
  intros Hp. split; [|split].
  - intros a Hmode Ha Hnot. apply css_failure_aborts.
    unfold node_css. rewrite Hp. cbn [bind].
    unfold layout_css. rewrite Hmode.
    destruct (subscript (VDict d) "layoutMode") as [mode|e] eqn:E.
    + cbn [bind]. unfold get at 1. rewrite Ha.
      destruct a; try reflexivity. now destruct (Hnot s).
    + exfalso. unfold get in Hmode. cbn [subscript] in E.
      destruct (lookup "layoutMode" d); discriminate.
  - intros c l Hl Hc Hnot. apply css_failure_aborts.
    unfold node_css. rewrite Hp, Hl. cbn [bind].
    unfold constraints_css, get. rewrite Hc.
    destruct c; try reflexivity. now destruct (Hnot d0).
  - intros s css Hcss Htext Hs Hnot. apply element_failure_aborts.
    unfold node_element. fold (is_text d). rewrite Hcss, Htext. cbn [bind].
    unfold get at 1. rewrite Hs.
    destruct s; try reflexivity. now destruct (Hnot d0).
Qed.

End Aborts.

(** ** The rule groups, one by one *)

Lemma contains_split (needle s : string) :
  (exists a c, s = a ++ needle ++ c) -> contains needle s = true.
Proof.
  intros (a & c & ->). apply contains_middle.
Qed.

(** Decides the comparisons of a string that is known. *)
Ltac eval_eq_str :=
  repeat match goal with
         | |- context [eq_str (VStr ?a) ?b] =>
             let r := eval vm_compute in (eq_str (VStr a) b) in
             change (eq_str (VStr a) b) with r
         end;
  cbv iota.

(** X9. Constraints: a horizontal STRETCH gives [width:100%], a horizontal
    CENTER auto margins left and right, a vertical STRETCH
    [height:100%], a vertical CENTER auto margins top and bottom, each
    axis whatever the other holds; any other values give nothing. *)
Theorem constraints_stretch_center (d c : dict) (css : string) :
  lookup "constraints" d = Some (VDict c) ->
  node_css d = Ok css ->
  (lookup "horizontal" c = Some (VStr "STRETCH") -> contains "width:100%; " css = true)
  /\ (lookup "horizontal" c = Some (VStr "CENTER") ->
      contains "margin-left:auto; margin-right:auto; " css = true)
  /\ (lookup "vertical" c = Some (VStr "STRETCH") -> contains "height:100%; " css = true)
  /\ (lookup "vertical" c = Some (VStr "CENTER") ->
      contains "margin-top:auto; margin-bottom:auto; " css = true)
  /\ (eq_str (get c "horizontal" VNone) "STRETCH" = false ->
      eq_str (get c "horizontal" VNone) "CENTER" = false ->
      eq_str (get c "vertical" VNone) "STRETCH" = false ->
      eq_str (get c "vertical" VNone) "CENTER" = false ->
      constraints_css d = Ok "").
Proof.
  intros Hc H.
  apply node_css_ok in H as (p & l & cons & g & b & _ & _ & Hcons & _ & _ & ->).
  assert (Hget : get d "constraints" (VDict []) = VDict c)
    by (unfold get; now rewrite Hc).
  unfold constraints_css in Hcons. rewrite Hget in Hcons.
  cbn [py_get bind] in Hcons. apply Ok_inj in Hcons.
  set (h := get c "horizontal" VNone) in *. set (v := get c "vertical" VNone) in *.
  split; [|split; [|split; [|split]]].
  - intros Hh. subst cons h. unfold get. rewrite Hh. eval_eq_str.
    match goal with |- context [?x ++ g ++ b] =>
      match x with _ ++ ?V => apply contains_split; exists (p ++ l), (V ++ g ++ b) end
    end.
    now string_assoc.
  - intros Hh. subst cons h. unfold get. rewrite Hh. eval_eq_str.
    match goal with |- context [?x ++ g ++ b] =>
      match x with _ ++ ?V => apply contains_split; exists (p ++ l), (V ++ g ++ b) end
    end.
    now string_assoc.
  - intros Hv. subst cons v. unfold get at 1 2. rewrite Hv. eval_eq_str.
    match goal with |- context [?x ++ g ++ b] =>
      match x with ?H ++ _ => apply contains_split; exists (p ++ l ++ H), (g ++ b) end
    end.
    now string_assoc.
  - intros Hv. subst cons v. unfold get at 1 2. rewrite Hv. eval_eq_str.
    match goal with |- context [?x ++ g ++ b] =>
      match x with ?H ++ _ => apply contains_split; exists (p ++ l ++ H), (g ++ b) end
    end.
    now string_assoc.
  - intros H1 H2 H3 H4. unfold constraints_css. rewrite Hget.
    cbn [py_get bind]. fold h v. now rewrite H1, H2, H3, H4.
Qed.

(** X10. The layout grid: a first grid of pattern COLUMNS gives a grid of
    [count] equal columns with the column gap [gutterSize] (default 0),
    written after the flex layout of an auto-layout node, so that the
    later [display] is the grid's; a first grid of any other pattern
    gives nothing. *)
Theorem columns_grid (d g : dict) (rest : list value) (css : string) :
  lookup "layoutGrids" d = Some (VList (VDict g :: rest)) ->
  node_css d = Ok css ->
  (forall count,
     lookup "pattern" g = Some (VStr "COLUMNS") ->
     lookup "count" g = Some count ->
     exists before after,
       css = before
             ++ "display:grid; grid-template-columns: repeat(" ++ py_str count
             ++ ", 1fr); column-gap: " ++ py_str (get g "gutterSize" (VInt 0)) ++ "px; "
             ++ after
       /\ (truthy (get d "layoutMode" VNone) = true ->
           exists position flex, before = position ++ "display:flex; " ++ flex))
  /\ (eq_str (get g "pattern" VNone) "COLUMNS" = false -> grid_css d = Ok "").
Proof.
  intros Hgrids H.
  assert (Hget : get d "layoutGrids" (VList []) = VList (VDict g :: rest))
    by (unfold get; now rewrite Hgrids).
  apply node_css_ok in H as (p & l & c & grid & b & _ & Hl & _ & Hg & _ & ->).
  unfold grid_css in Hg. rewrite Hget in Hg. cbn [truthy first bind py_get] in Hg.
  split.
  - intros count Hpattern Hcount. unfold get at 1 2 in Hg.
    rewrite Hpattern, Hcount in Hg. revert Hg. eval_eq_str. intros Hg.
    apply Ok_inj in Hg as <-.
    exists (p ++ l ++ c), b. split; [now string_assoc|].
    intros Hmode. unfold layout_css in Hl. rewrite Hmode in Hl.
    apply bind_ok in Hl as (mode & _ & Hl). apply bind_ok in Hl as (align & _ & Hl).
    apply bind_ok in Hl as (justify & _ & Hl). apply Ok_inj in Hl as <-.
    match goal with |- context [("display:flex; " ++ ?flex) ++ c] =>
      exists p, (flex ++ c)
    end.
    now string_assoc.
  - intros Hpattern. unfold grid_css. rewrite Hget.
    cbn [truthy first bind py_get]. now rewrite Hpattern.
Qed.

Lemma rgba_solid_not_empty (f : dict) (color : string) :
  eq_str (get f "type" VNone) "SOLID" = true ->
  rgba_from_fill (VDict f) = Ok color ->
  exists channels, color = "rgba(" ++ channels ++ ")".
Proof.
  unfold rgba_from_fill. cbn [py_get bind]. intros -> H.
  apply bind_ok in H as (c & _ & H). apply bind_ok in H as (r & _ & H).
  apply bind_ok in H as (g & _ & H). apply bind_ok in H as (b & _ & H).
  cbn [py_get bind] in H. apply Ok_inj in H as <-.
  exists (str_of_Z r ++ "," ++ str_of_Z g ++ "," ++ str_of_Z b ++ ","
          ++ py_str (get f "opacity" (VInt 1))).
  now string_assoc.
Qed.

(** X11. A node that is not a TEXT has a background exactly when its first
    fill is SOLID: then its style ends with the background-color of the
    fill's rgba colour, and otherwise (a gradient, an image) the fills
    add nothing to the style. *)
Theorem background_iff_solid (d f : dict) (rest : list value) (css : string) :
  is_text d = false ->
  lookup "fills" d = Some (VList (VDict f :: rest)) ->
  node_css d = Ok css ->
  (eq_str (get f "type" VNone) "SOLID" = true ->
   exists before channels,
     rgba_from_fill (VDict f) = Ok ("rgba(" ++ channels ++ ")")
     /\ css = before ++ "background-color: rgba(" ++ channels ++ "); ")
  /\ (eq_str (get f "type" VNone) "SOLID" = false ->
      background_css d = Ok ""
      /\ exists position layout constraints grid,
          position_css d = Ok position /\ layout_css d = Ok layout
          /\ constraints_css d = Ok constraints /\ grid_css d = Ok grid
          /\ css = position ++ layout ++ constraints ++ grid).
Proof.
  intros Htext Hfills H.
  assert (Hof : fills_of d = VList (VDict f :: rest))
    by (unfold fills_of, get; now rewrite Hfills).
  apply node_css_ok in H as (p & l & c & g & b & Hp & Hl & Hc & Hg & Hb & ->).
  unfold background_css in Hb. fold (is_text d) in Hb. rewrite Htext, Hof in Hb.
  cbn [negb truthy first bind] in Hb.
  split.
  - intros Hsolid. apply bind_ok in Hb as (color & Hcolor & Hb).
    destruct (rgba_solid_not_empty f color Hsolid Hcolor) as (channels & ->).
    cbn in Hb. apply Ok_inj in Hb as <-.
    exists (p ++ l ++ c ++ g), channels. split; [exact Hcolor | now string_assoc].
  - intros Hother.
    assert (Hempty : rgba_from_fill (VDict f) = Ok "")
      by (unfold rgba_from_fill; cbn [py_get bind]; now rewrite Hother).
    rewrite Hempty in Hb. cbn in Hb. apply Ok_inj in Hb as <-.
    split.
    + unfold background_css. fold (is_text d). rewrite Htext, Hof.
      cbn [negb truthy first bind]. now rewrite Hempty.
    + exists p, l, c, g. repeat (split; [assumption|]).
      now rewrite string_app_nil_r.
Qed.

(** ** The source of an image *)

Section Sources.

Variable images_response : value -> result value.

Local Notation "'render'" := (process_node images_response).
Local Notation "'element'" := (node_element images_response).

Lemma image_element (d : dict) (css : string) :
  is_image d = true ->
  node_css d = Ok css ->
  element d =
  (id <- subscript (VDict d) "id" ;;
   src <- get_image_url images_response id ;;
   Ok ("<img src=" ++ dq ++ py_str src ++ dq ++ " style=" ++ dq ++ css ++ dq ++ " />")).
Proof.
  intros Himage Hcss. unfold node_element. rewrite Hcss. cbn [bind].
  fold (is_text d). fold (is_image d).
  now rewrite (image_is_not_text d Himage), Himage.
Qed.

(** X12. The source of an IMAGE is what the endpoint's [images] holds at
    the node's id, as it prints: the URL when there is one. Without an
    [id], and when the answer has no [images], a KeyError is raised and
    the node is not rendered. *)
Theorem image_source (d : dict) (css : string) :
  is_image d = true ->
  node_css d = Ok css ->
  (lookup "id" d = None -> render (VDict d) = Raise KeyError)
  /\ (forall id body,
        lookup "id" d = Some (VStr id) ->
        images_response (VStr id) = Ok (VDict body) ->
        (lookup "images" body = None -> render (VDict d) = Raise KeyError)
        /\ (forall images url,
              lookup "images" body = Some (VDict images) ->
              lookup id images = Some url ->
              element d =
                Ok ("<img src=" ++ dq ++ py_str url ++ dq
                    ++ " style=" ++ dq ++ css ++ dq ++ " />"))).
Proof.
  intros Himage Hcss. split.
  - intros Hid. rewrite process_node_unfold, (image_element d css Himage Hcss).
    cbn [subscript]. now rewrite Hid.
  - intros id body Hid Hbody. split.
    + intros Hnone. rewrite process_node_unfold, (image_element d css Himage Hcss).
      cbn [subscript]. rewrite Hid. cbn [bind]. unfold get_image_url.
      rewrite Hbody. cbn [bind subscript]. now rewrite Hnone.
    + intros images url Himages Hurl. rewrite (image_element d css Himage Hcss).
      cbn [subscript]. rewrite Hid. cbn [bind]. unfold get_image_url.
      rewrite Hbody. cbn [bind subscript]. rewrite Himages.
      cbn [bind py_get_key]. unfold get. now rewrite Hurl.
Qed.

End Sources.

(** ** The style as a whole *)

Lemma closed_style_app (a b : string) :
  closed_style a -> closed_style b -> closed_style (a ++ b).
Proof.
  intros [-> | (da & ->)] [-> | (db & ->)].
  - now left.
  - right. now exists db.
  - right. exists da. now rewrite string_app_nil_r.
  - right. exists ((da ++ "; ") ++ db). symmetry. apply string_app_assoc.
Qed.

Ltac closes_with prefix := right; exists prefix; now string_assoc.

(** X14. The style of a node is empty or ends with the separator of
    declarations, whichever rule groups wrote to it: what a TEXT appends
    to it starts a declaration of its own. *)
Theorem node_css_closed (d : dict) (css : string) :
  node_css d = Ok css -> closed_style css.
Proof.
  intros H.
  apply node_css_ok in H as (p & l & c & g & b & Hp & Hl & Hc & Hg & Hb & ->).
  repeat apply closed_style_app.
  - unfold position_css in Hp. destruct (has_key _ _); [|apply Ok_inj in Hp as <-; now left].
    apply bind_ok in Hp as (bb & _ & Hp). apply bind_ok in Hp as (x & _ & Hp).
    apply bind_ok in Hp as (y & _ & Hp). apply bind_ok in Hp as (w & _ & Hp).
    apply bind_ok in Hp as (h & _ & Hp). apply Ok_inj in Hp as <-.
    closes_with ("position:absolute; left:" ++ py_str x ++ "px; top:" ++ py_str y
                 ++ "px; width:" ++ py_str w ++ "px; height:" ++ py_str h ++ "px").
  - unfold layout_css in Hl. destruct (truthy _); [|apply Ok_inj in Hl as <-; now left].
    apply bind_ok in Hl as (mode & _ & Hl). apply bind_ok in Hl as (align & _ & Hl).
    apply bind_ok in Hl as (justify & _ & Hl). apply Ok_inj in Hl as <-.
    right.
    exists ("display:flex; "
            ++ "flex-direction:" ++ (if eq_str mode "HORIZONTAL" then "row" else "column") ++ "; "
            ++ "gap:" ++ py_str (get d "itemSpacing" (VInt 0)) ++ "px; "
            ++ "padding:" ++ py_str (get d "paddingTop" (VInt 0)) ++ "px "
            ++ py_str (get d "paddingRight" (VInt 0)) ++ "px "
            ++ py_str (get d "paddingBottom" (VInt 0)) ++ "px "
            ++ py_str (get d "paddingLeft" (VInt 0)) ++ "px; "
            ++ "align-items:" ++ align ++ "; "
            ++ "justify-content:" ++ justify).
    destruct (eq_str mode "HORIZONTAL"); now string_assoc.
  - unfold constraints_css in Hc.
    apply bind_ok in Hc as (h & _ & Hc). apply bind_ok in Hc as (v & _ & Hc).
    apply Ok_inj in Hc as <-. apply closed_style_app.
    + destruct (eq_str h "STRETCH"); [closes_with "width:100%"|].
      destruct (eq_str h "CENTER"); [closes_with "margin-left:auto; margin-right:auto"|].
      now left.
    + destruct (eq_str v "STRETCH"); [closes_with "height:100%"|].
      destruct (eq_str v "CENTER"); [closes_with "margin-top:auto; margin-bottom:auto"|].
      now left.
  - unfold grid_css in Hg. cbv zeta in Hg.
    destruct (truthy _); [|apply Ok_inj in Hg as <-; now left].
    apply bind_ok in Hg as (grid & _ & Hg). apply bind_ok in Hg as (pattern & _ & Hg).
    destruct (eq_str pattern "COLUMNS"); [|apply Ok_inj in Hg as <-; now left].
    apply bind_ok in Hg as (count & _ & Hg). apply bind_ok in Hg as (gutter & _ & Hg).
    apply Ok_inj in Hg as <-.
    closes_with ("display:grid; grid-template-columns: repeat(" ++ py_str count
                 ++ ", 1fr); column-gap: " ++ py_str gutter ++ "px").
  - unfold background_css in Hb. cbv zeta in Hb.
    destruct (negb _); [|apply Ok_inj in Hb as <-; now left].
    destruct (truthy (fills_of d)); [|apply Ok_inj in Hb as <-; now left].
    apply bind_ok in Hb as (fill & _ & Hb). apply bind_ok in Hb as (color & _ & Hb).
    destruct (truthy (VStr color)); [|apply Ok_inj in Hb as <-; now left].
    apply Ok_inj in Hb as <-. closes_with ("background-color: " ++ color).
Qed.

(** ** Instances of the further properties *)

Lemma render_is_preorder_witness :
  tree (VDict album) = true
  /\ preorder (VDict album) = [album; hello_text; picture]
  /\ process_node no_images (VDict album)
     = Ok (empty_div ++ hello_markup
           ++ "<img src=" ++ dq ++ dq ++ " style=" ++ dq ++ dq ++ " />").
Proof.
  split; [reflexivity|]. split; [reflexivity|].
  rewrite (proj1 (render_is_preorder no_images (VDict album) eq_refl)).
  vm_compute. reflexivity.
Defined.

Lemma no_image_no_request_witness :
  Forall (fun d => is_image d = false) (preorder (VDict hello_page))
  /\ process_node unreachable (VDict hello_page) = Ok (empty_div ++ hello_markup).
Proof.
  assert (H : Forall (fun d => is_image d = false) (preorder (VDict hello_page)))
    by (repeat constructor).
  split; [exact H|].
  rewrite (no_image_no_request unreachable no_images (VDict hello_page) H).
  vm_compute. reflexivity.
Defined.

Lemma unread_keys_ignored_witness :
  (forall k, In k read_keys -> lookup k hidden_hello_text = lookup k hello_text)
  /\ process_node no_images (VDict hidden_hello_text) = Ok hello_markup.
Proof.
  assert (H : forall k, In k read_keys ->
                        lookup k hidden_hello_text = lookup k hello_text).
  { intros k Hk. simpl in Hk.
    repeat destruct Hk as [<-|Hk]; try reflexivity. contradiction. }
  split; [exact H|].
  rewrite (unread_keys_ignored no_images hello_text hidden_hello_text H).
  vm_compute. reflexivity.
Defined.

Lemma only_first_entry_witness :
  lookup "fills" text_on_red = Some (VList [VDict red_fill])
  /\ process_node no_images
       (VDict (dict_set "fills" (VList [VDict red_fill; black_fill]) text_on_red))
     = process_node no_images (VDict text_on_red)
  /\ lookup "layoutGrids" three_columns
     = Some (VList [VDict [("pattern", VStr "COLUMNS"); ("count", VInt 3);
                           ("gutterSize", VInt 10)]])
  /\ process_node no_images
       (VDict (dict_set "layoutGrids"
                 (VList [VDict [("pattern", VStr "COLUMNS"); ("count", VInt 3);
                                ("gutterSize", VInt 10)];
                         VDict [("pattern", VStr "ROWS")]])
                 three_columns))
     = process_node no_images (VDict three_columns).
Proof.
  split; [reflexivity|]. split; [|split; [reflexivity|]].
  - exact (only_first_entry no_images text_on_red "fills" (VDict red_fill) []
             [black_fill] (or_introl eq_refl) eq_refl).
  - exact (only_first_entry no_images three_columns "layoutGrids" _ []
             [VDict [("pattern", VStr "ROWS")]] (or_intror eq_refl) eq_refl).
Defined.

Lemma broken_box_aborts_witness :
  lookup "width" [("x", VInt 0); ("y", VInt 0); ("width", VInt 10)] = Some (VInt 10)
  /\ process_node no_images (VDict half_box) = Raise KeyError
  /\ process_node no_images (VDict null_box) = Raise TypeError.
Proof.
  split; [reflexivity|]. split.
  - exact (proj2 (broken_box_aborts no_images half_box _ eq_refl)
                 [("x", VInt 0); ("y", VInt 0); ("width", VInt 10)] eq_refl
                 (or_intror (or_intror (or_intror eq_refl)))).
  - apply (proj1 (broken_box_aborts no_images null_box VNone eq_refl)).
    intros b H. discriminate H.
Defined.

Lemma solid_without_color_aborts_witness :
  is_text colorless = false
  /\ process_node no_images (VDict colorless) = Raise KeyError
  /\ is_text colorless_text = true
  /\ process_node no_images (VDict colorless_text) = Raise KeyError.
Proof.
  split; [reflexivity|]. split; [|split; [reflexivity|]].
  - exact (proj1 (proj2 (solid_without_color_aborts no_images colorless
                           [("type", VStr "SOLID")] [] eq_refl eq_refl eq_refl))
                 eq_refl "" "" "" "" eq_refl eq_refl eq_refl eq_refl).
  - exact (proj2 (proj2 (solid_without_color_aborts no_images colorless_text
                           [("type", VStr "SOLID")] [] eq_refl eq_refl eq_refl))
                 eq_refl "" [] eq_refl eq_refl).
Defined.

Lemma missing_method_aborts_witness :
  position_css null_constraints = Ok ""
  /\ process_node no_images (VDict null_constraints) = Raise AttributeError.
Proof.
  split; [reflexivity|].
  apply (proj1 (proj2 (missing_method_aborts no_images null_constraints "" eq_refl))
               VNone "" eq_refl eq_refl).
  intros b H. discriminate H.
Defined.

Lemma constraints_stretch_center_witness :
  node_css stretched = Ok "width:100%; margin-top:auto; margin-bottom:auto; "
  /\ contains "width:100%; " "width:100%; margin-top:auto; margin-bottom:auto; " = true
  /\ contains "margin-top:auto; margin-bottom:auto; "
       "width:100%; margin-top:auto; margin-bottom:auto; " = true.
Proof.
  assert (H : node_css stretched = Ok "width:100%; margin-top:auto; margin-bottom:auto; ")
    by reflexivity.
  destruct (constraints_stretch_center stretched _ _ eq_refl H)
    as (Hstretch & _ & _ & Hcenter & _).
  split; [exact H|]. split; [exact (Hstretch eq_refl) | exact (Hcenter eq_refl)].
Defined.

Lemma columns_grid_witness :
  exists before after,
    node_css three_columns
    = Ok (before
          ++ "display:grid; grid-template-columns: repeat(3, 1fr); column-gap: 10px; "
          ++ after)
    /\ exists position flex, before = position ++ "display:flex; " ++ flex.
Proof.
  assert (H : exists css, node_css three_columns = Ok css)
    by (eexists; vm_compute; reflexivity).
  destruct H as (css & H).
  destruct (proj1 (columns_grid three_columns _ [] css eq_refl H) (VInt 3) eq_refl eq_refl)
    as (before & after & -> & Hflex).
  exists before, after. split; [exact H | exact (Hflex eq_refl)].
Defined.

Lemma background_iff_solid_witness :
  is_text frame_on_red = false
  /\ (exists before channels,
        rgba_from_fill (VDict red_fill) = Ok ("rgba(" ++ channels ++ ")")
        /\ node_css frame_on_red
           = Ok (before ++ "background-color: rgba(" ++ channels ++ "); "))
  /\ background_css gradient_frame = Ok "".
Proof.
  assert (Hred : exists css, node_css frame_on_red = Ok css)
    by (eexists; vm_compute; reflexivity).
  destruct Hred as (css & Hcss).
  split; [reflexivity|]. split.
  - destruct (proj1 (background_iff_solid frame_on_red red_fill [] css
                       eq_refl eq_refl Hcss) eq_refl)
      as (before & channels & Hrgba & ->).
    now exists before, channels.
  - exact (proj1 (proj2 (background_iff_solid gradient_frame
                           [("type", VStr "GRADIENT_LINEAR")] [] "" eq_refl eq_refl eq_refl)
                        eq_refl)).
Defined.

Lemma image_source_witness :
  is_image picture = true
  /\ node_css picture = Ok ""
  /\ node_element one_image picture
     = Ok ("<img src=" ++ dq ++ "https://cdn.example/img/1-5.png" ++ dq
           ++ " style=" ++ dq ++ dq ++ " />").
Proof.
  split; [reflexivity|]. split; [reflexivity|].
  exact (proj2 (proj2 (image_source one_image picture "" eq_refl eq_refl)
                      "1:5" _ eq_refl eq_refl)
               _ (VStr "https://cdn.example/img/1-5.png") eq_refl eq_refl).
Defined.

Lemma node_css_closed_witness :
  exists declarations, node_css flex_row = Ok (declarations ++ "; ").
Proof.
  assert (H : exists css, node_css flex_row = Ok css)
    by (eexists; vm_compute; reflexivity).
  destruct H as (css & H).
  destruct (node_css_closed flex_row css H) as [-> | (declarations & ->)].
  - vm_compute in H. discriminate H.
  - now exists declarations.
Defined.
